(** * ATENA code analyzer: a shallow embedding of [code_analyzer.py]

    The development follows the source file top-down: Python [str] values
    and the few string primitives the analyzer uses, the [ast] nodes it
    inspects together with [ast.walk], the [PythonAnalyzer] rules, and the
    [CodeAnalyzer] directory walk.  Everything that belongs to the Python
    runtime and not to the repository ([ast.parse], [ast.get_docstring],
    [pathlib]) is a section variable. *)

From Stdlib Require Import ZArith List Bool String Ascii Lia Permutation Sorted.
From Stdlib Require Import Numbers.DecimalString.
Import ListNotations.

Open Scope string_scope.
Open Scope list_scope.
Open Scope Z_scope.

(** ** Python [str]

    A [str] is a sequence of code points; the embedding keeps the code
    points below 256, which is what [ascii] holds, so [len] is
    [String.length].  On that range [str.isspace] and the regex class
    [\s] agree, and [re.IGNORECASE] on an ASCII letter matches exactly its
    two cases. *)

Definition len (s : string) : Z := Z.of_nat (String.length s).

(** [str(n)] for an [int]. *)
Definition str_of_int (n : Z) : string := NilZero.string_of_int (Z.to_int n).

Definition isspace (c : ascii) : bool :=
  let n := nat_of_ascii c in
  ((9 <=? n) && (n <=? 13) || (28 <=? n) && (n <=? 32)
   || (n =? 133) || (n =? 160))%nat.

Fixpoint lstrip (s : string) : string :=
  match s with
  | String c s' => if isspace c then lstrip s' else s
  | EmptyString => EmptyString
  end.

Fixpoint rstrip (s : string) : string :=
  match s with
  | String c s' =>
      match rstrip s' with
      | EmptyString => if isspace c then EmptyString else String c EmptyString
      | r => String c r
      end
  | EmptyString => EmptyString
  end.

Definition strip (s : string) : string := rstrip (lstrip s).

Definition startswith (s p : string) : bool := String.prefix p s.

(** [needle in hay]. *)
Fixpoint contains (needle hay : string) : bool :=
  String.prefix needle hay
  || match hay with
     | String _ h => contains needle h
     | EmptyString => false
     end.

(** [content.split("\n")]: never empty, one more piece than newlines. *)
Fixpoint split_lines (s : string) : list string :=
  match s with
  | EmptyString => [EmptyString]
  | String c s' =>
      if Ascii.eqb c "010"%char then EmptyString :: split_lines s'
      else match split_lines s' with
           | l :: ls => String c l :: ls
           | [] => [String c EmptyString]
           end
  end.

(** [enumerate(xs, start)]. *)
Fixpoint enumerate {A : Type} (xs : list A) (start : Z) : list (Z * A) :=
  match xs with
  | [] => []
  | x :: xs' => (start, x) :: enumerate xs' (start + 1)
  end.

(** *** The four regular expressions of [_check_common_issues]

    Each pattern is a literal, a run of [\s*] and another literal; the
    literals never start with white space, so a greedy run that skips all
    of it decides the match. *)

Definition lower (c : ascii) : ascii :=
  let n := nat_of_ascii c in
  if ((65 <=? n) && (n <=? 90))%nat then ascii_of_nat (n + 32) else c.

Fixpoint prefix_ci (p s : string) : bool :=
  match p, s with
  | EmptyString, _ => true
  | String a p', String b s' => Ascii.eqb (lower a) (lower b) && prefix_ci p' s'
  | String _ _, EmptyString => false
  end.

(** [re.search(pat, line)] for an unanchored pattern: try every start. *)
Fixpoint search (match_here : string -> bool) (line : string) : bool :=
  match_here line
  || match line with
     | String _ rest => search match_here rest
     | EmptyString => false
     end.

(** [#\s*(TODO|FIXME|XXX|HACK)] with [re.IGNORECASE]. *)
Definition pending_here (s : string) : bool :=
  match s with
  | String "#"%char rest =>
      let r := lstrip rest in
      prefix_ci "TODO" r || prefix_ci "FIXME" r
      || prefix_ci "XXX" r || prefix_ci "HACK" r
  | _ => false
  end.

(** [except\s*:] *)
Definition bare_except_here (s : string) : bool :=
  String.prefix "except" s
  && String.prefix ":" (lstrip (String.substring 6 (String.length s - 6) s)).

(** [^\s*print\s*\(], anchored at the start of the line. *)
Definition print_call_at_start (line : string) : bool :=
  let r := lstrip line in
  String.prefix "print" r
  && String.prefix "(" (lstrip (String.substring 5 (String.length r - 5) r)).

(** ** Syntax trees

    The node classes of Python's [ast] that the analyzer tells apart, with
    the fields it reads; every other class is [Other], carrying its class
    name and its child nodes in field order.  [ast.AsyncFunctionDef],
    [ast.IfExp], [ast.AsyncFor], [ast.Lambda] and the comprehensions are
    such other classes: no [isinstance] test of the source names them.

    [kw_defaults] lists the defaults that are present; the [None] entries
    of the Python list are no nodes and [iter_child_nodes] passes them
    over. *)

Record arguments_of (A : Type) : Type := mk_arguments {
  posonlyargs : list A;
  args : list A;
  vararg : option A;
  kwonlyargs : list A;
  kw_defaults : list A;
  kwarg : option A;
  defaults : list A
}.

Arguments mk_arguments {A}.
Arguments posonlyargs {A}.
Arguments args {A}.
Arguments vararg {A}.
Arguments kwonlyargs {A}.
Arguments kw_defaults {A}.
Arguments kwarg {A}.
Arguments defaults {A}.

#[warnings="-register-all"] Inductive node : Type :=
| Module (body : list node)
| FunctionDef (name : string) (lineno : Z) (end_lineno : option Z)
    (fargs : arguments_of node) (body decorator_list : list node)
    (returns : option node) (type_params : list node)
| ClassDef (name : string) (lineno : Z)
    (bases keywords body decorator_list type_params : list node)
| Arguments (a : arguments_of node)
| If (children : list node)
| While (children : list node)
| For (children : list node)
| ExceptHandler (children : list node)
| BoolOp (op : node) (values : list node)
| Other (class_name : string) (children : list node).

Definition opt_list {A : Type} (o : option A) : list A :=
  match o with Some x => [x] | None => [] end.

Definition arguments_children {A : Type} (a : arguments_of A) : list A :=
  posonlyargs a ++ args a ++ opt_list (vararg a) ++ kwonlyargs a
  ++ kw_defaults a ++ opt_list (kwarg a) ++ defaults a.

(** [ast.iter_child_nodes]: the direct children, in field order. *)
Definition iter_child_nodes (n : node) : list node :=
  match n with
  | Module body => body
  | FunctionDef _ _ _ a body decs ret tps =>
      Arguments a :: body ++ decs ++ opt_list ret ++ tps
  | ClassDef _ _ bases kws body decs tps =>
      bases ++ kws ++ body ++ decs ++ tps
  | Arguments a => arguments_children a
  | If cs | While cs | For cs | ExceptHandler cs => cs
  | BoolOp op vs => op :: vs
  | Other _ cs => cs
  end.

(** The subtree of a node, the node itself first (depth-first preorder).
    This is the reference enumeration the traversal is compared with. *)
Fixpoint subtree (n : node) : list node :=
  let forest := flat_map subtree in
  let opt o := match o with Some x => subtree x | None => [] end in
  let of_arguments a :=
    match a with
    | mk_arguments po ar va ko kd kw de =>
        forest po ++ forest ar ++ opt va ++ forest ko
        ++ forest kd ++ opt kw ++ forest de
    end in
  n :: match n with
       | Module body => forest body
       | FunctionDef _ _ _ a body decs ret tps =>
           (Arguments a :: of_arguments a)
           ++ forest body ++ forest decs ++ opt ret ++ forest tps
       | ClassDef _ _ bases kws body decs tps =>
           forest bases ++ forest kws ++ forest body
           ++ forest decs ++ forest tps
       | Arguments a => of_arguments a
       | If cs | While cs | For cs | ExceptHandler cs => forest cs
       | BoolOp op vs => subtree op ++ forest vs
       | Other _ cs => forest cs
       end.

Definition size (n : node) : nat := List.length (subtree n).

(** [ast.walk]: a queue seeded with the node; each step pops the left end,
    appends that node's children on the right and yields the node.  The
    loop runs once per node of the tree, so [size] steps empty the queue. *)
Fixpoint walk_queue (steps : nat) (todo : list node) : list node :=
  match steps, todo with
  | S k, n :: rest => n :: walk_queue k (rest ++ iter_child_nodes n)
  | _, _ => []
  end.

Definition walk (n : node) : list node := walk_queue (size n) [n].

(** ** Configuration ([config.py]) *)

Definition MAX_FUNCTION_LENGTH : Z := 50.
Definition MAX_COMPLEXITY : Z := 10.

(** ** Results *)

Record CodeIssue : Type := mkCodeIssue {
  file : string;
  line : Z;
  issue_type : string;
  severity : string;
  message : string;
  suggestion : string
}.

(** [metrics] is a [dict]; only [d[k] = v] is ever applied to it. *)
Definition dict : Type := list (string * Z).

Fixpoint setitem (d : dict) (k : string) (v : Z) : dict :=
  match d with
  | [] => [(k, v)]
  | (k', v') :: d' =>
      if String.eqb k k' then (k, v) :: d' else (k', v') :: setitem d' k v
  end.

Record AnalysisResult : Type := mkAnalysisResult {
  file_path : string;
  issues : list CodeIssue;
  metrics : dict
}.

(** [result.issues.append(issue)] and [result.metrics[k] = v], as updates
    of the one result object that [analyze] threads through its helpers. *)
Definition append (result : AnalysisResult) (issue : CodeIssue)
  : AnalysisResult :=
  mkAnalysisResult (file_path result) (issues result ++ [issue])
                   (metrics result).

Definition set_metric (result : AnalysisResult) (k : string) (v : Z)
  : AnalysisResult :=
  mkAnalysisResult (file_path result) (issues result)
                   (setitem (metrics result) k v).

(** [if cond: result.issues.append(issue)] *)
Definition append_if (cond : bool) (result : AnalysisResult)
  (issue : CodeIssue) : AnalysisResult :=
  if cond then append result issue else result.

(** ** Exceptions

    [SyntaxError] is the one class the source catches; any other class
    travels up the call stack unchanged. *)

Inductive exn : Type :=
| SyntaxError (msg : string) (lineno : option Z)
| Exception (class_name : string).

Inductive outcome (A : Type) : Type :=
| Return (a : A)
| Raise (e : exn).

Arguments Return {A}.
Arguments Raise {A}.

Definition bind {A B : Type} (m : outcome A) (k : A -> outcome B)
  : outcome B :=
  match m with
  | Return a => k a
  | Raise e => Raise e
  end.

Notation "x <- m ;; k" := (bind m (fun x => k))
  (at level 61, m at next level, right associativity).

(** A [for] loop whose body may raise: the first exception ends the loop. *)
Fixpoint for_each {A S : Type} (xs : list A) (body : S -> A -> outcome S)
  (s : S) : outcome S :=
  match xs with
  | [] => Return s
  | x :: xs' => s' <- body s x ;; for_each xs' body s'
  end.

(** Truth value of an [Optional[str]]: [None] and [''] are false. *)
Definition truthy (o : option string) : bool :=
  match o with
  | Some (String _ _) => true
  | _ => false
  end.

(** [x or 0] for an [Optional[int]]. *)
Definition or_zero (o : option Z) : Z :=
  match o with
  | Some n => if n =? 0 then 0 else n
  | None => 0
  end.

(** ** [PythonAnalyzer._calculate_complexity] *)

Definition _calculate_complexity (n : node) : Z :=
  fold_left
    (fun complexity child =>
       match child with
       | If _ | While _ | For _ | ExceptHandler _ => complexity + 1
       | BoolOp _ values => complexity + (Z.of_nat (List.length values) - 1)
       | _ => complexity
       end)
    (walk n) 1.

Section Analyzer.

(** The Python runtime the module runs on. *)
Variable get_docstring : node -> option string.      (* ast.get_docstring *)
Variable ast_parse : string -> outcome node.         (* ast.parse *)
Variable read_text : string -> outcome string.       (* Path.read_text *)
Variable path_exists : string -> bool.               (* Path.exists *)
Variable is_file : string -> bool.                   (* Path.is_file *)
Variable is_dir : string -> bool.                    (* Path.is_dir *)
Variable suffix : string -> string.                  (* Path.suffix *)
Variable rglob : string -> string -> list string.    (* Path.rglob *)

(** ** [PythonAnalyzer._analyze_functions] *)

(** The body of the [for node in ast.walk(tree)] loop. *)
Definition function_rules (file_path : string) (result : AnalysisResult)
  (node : node) : AnalysisResult :=
       match node with
       | FunctionDef name lineno end_lineno a _ _ _ _ =>
           (* Check function length *)
           let func_lines :=
             match end_lineno with
             | Some e => if e =? 0 then 0 else e - lineno + 1
             | None => 0
             end in
           let result :=
             append_if (func_lines >? MAX_FUNCTION_LENGTH) result
               (mkCodeIssue file_path lineno "LONG_FUNCTION" "MEDIUM"
                  ("Function '" ++ name ++ "' has " ++ str_of_int func_lines
                   ++ " lines (max: " ++ str_of_int MAX_FUNCTION_LENGTH
                   ++ ")")%string
                  "Consider breaking this function into smaller, focused functions") in
           (* Check for missing docstring *)
           let result :=
             append_if (negb (truthy (get_docstring node))) result
               (mkCodeIssue file_path lineno "MISSING_DOCSTRING" "LOW"
                  ("Function '" ++ name ++ "' lacks a docstring")%string
                  "Add a docstring describing the function's purpose and parameters") in
           (* Check parameter count *)
           let param_count := Z.of_nat (List.length (args a)) in
           let result :=
             append_if (param_count >? 5) result
               (mkCodeIssue file_path lineno "TOO_MANY_PARAMETERS" "MEDIUM"
                  ("Function '" ++ name ++ "' has " ++ str_of_int param_count
                   ++ " parameters")%string
                  "Consider using a configuration object or dataclass to group parameters") in
           (* Calculate cyclomatic complexity *)
           let complexity := _calculate_complexity node in
           append_if (complexity >? MAX_COMPLEXITY) result
             (mkCodeIssue file_path lineno "HIGH_COMPLEXITY" "HIGH"
                ("Function '" ++ name ++ "' has complexity "
                 ++ str_of_int complexity ++ " (max: "
                 ++ str_of_int MAX_COMPLEXITY ++ ")")%string
                "Reduce complexity by extracting conditions into separate functions")
       | _ => result
       end.

Definition _analyze_functions (tree : node) (file_path : string)
  (result : AnalysisResult) : AnalysisResult :=
  fold_left (function_rules file_path) (walk tree) result.

(** ** [PythonAnalyzer._analyze_classes] *)

Definition is_FunctionDef (n : node) : bool :=
  match n with FunctionDef _ _ _ _ _ _ _ _ => true | _ => false end.

Definition is_ClassDef (n : node) : bool :=
  match n with ClassDef _ _ _ _ _ _ _ => true | _ => false end.

(** The body of the [for node in ast.walk(tree)] loop. *)
Definition class_rules (file_path : string) (result : AnalysisResult)
  (node : node) : AnalysisResult :=
       match node with
       | ClassDef name lineno _ _ body _ _ =>
           (* Check for missing class docstring *)
           let result :=
             append_if (negb (truthy (get_docstring node))) result
               (mkCodeIssue file_path lineno "MISSING_DOCSTRING" "LOW"
                  ("Class '" ++ name ++ "' lacks a docstring")%string
                  "Add a docstring describing the class's purpose") in
           (* Count methods *)
           let methods := filter is_FunctionDef body in
           append_if (Z.of_nat (List.length methods) >? 20) result
             (mkCodeIssue file_path lineno "LARGE_CLASS" "MEDIUM"
                ("Class '" ++ name ++ "' has "
                 ++ str_of_int (Z.of_nat (List.length methods))
                 ++ " methods")%string
                "Consider splitting into smaller, focused classes (Single Responsibility)")
       | _ => result
       end.

Definition _analyze_classes (tree : node) (file_path : string)
  (result : AnalysisResult) : AnalysisResult :=
  fold_left (class_rules file_path) (walk tree) result.

(** ** [PythonAnalyzer._check_common_issues] *)

(** The body of the [for i, line in enumerate(lines, 1)] loop. *)
Definition line_rules (file_path : string) (result : AnalysisResult)
  (numbered : Z * string) : AnalysisResult :=
       let '(i, line) := numbered in
       (* Check line length *)
       let result :=
         append_if (len line >? 120) result
           (mkCodeIssue file_path i "LINE_TOO_LONG" "LOW"
              ("Line exceeds 120 characters (" ++ str_of_int (len line)
               ++ " chars)")%string
              "Break the line into multiple lines for better readability") in
       (* Check for TODO/FIXME comments *)
       let result :=
         append_if (search pending_here line) result
           (mkCodeIssue file_path i "PENDING_TASK" "LOW"
              "Found pending task marker"
              "Address or track this task in your issue tracker") in
       (* Check for bare except *)
       let result :=
         append_if (search bare_except_here line) result
           (mkCodeIssue file_path i "BARE_EXCEPT" "HIGH"
              "Bare except clause catches all exceptions"
              "Specify the exception type(s) to catch") in
       (* Check for print statements (should use logging) *)
       append_if (print_call_at_start line && negb (contains "# noqa" line))
         result
         (mkCodeIssue file_path i "PRINT_STATEMENT" "LOW"
            "Using print() instead of logging"
            "Consider using the logging module for better control").

Definition _check_common_issues (content : string) (file_path : string)
  (result : AnalysisResult) : AnalysisResult :=
  let lines := split_lines content in
  fold_left (line_rules file_path) (enumerate lines 1) result.

(** ** [PythonAnalyzer.analyze] *)

Definition count_if {A : Type} (p : A -> bool) (xs : list A) : Z :=
  Z.of_nat (List.length (filter p xs)).

Definition analyze (file_path : string) : outcome AnalysisResult :=
  let result := mkAnalysisResult file_path [] [] in
  match (content <- read_text file_path ;;
         tree <- ast_parse content ;;
         Return (content, tree)) with
  | Raise (SyntaxError msg lineno) =>
      Return (append result
                (mkCodeIssue file_path (or_zero lineno) "SYNTAX_ERROR" "HIGH"
                   ("Syntax error: " ++ msg)%string
                   "Fix the syntax error before proceeding"))
  | Raise e => Raise e
  | Return (content, tree) =>
      let lines := split_lines content in
      let result :=
        set_metric result "total_lines" (Z.of_nat (List.length lines)) in
      let result :=
        set_metric result "blank_lines"
          (count_if (fun line => negb (0 <? len (strip line))) lines) in
      let result :=
        set_metric result "comment_lines"
          (count_if (fun line => startswith (strip line) "#") lines) in
      (* Analyze functions *)
      let result := _analyze_functions tree file_path result in
      (* Analyze classes *)
      let result := _analyze_classes tree file_path result in
      (* Check for common issues *)
      let result := _check_common_issues content file_path result in
      Return result
  end.

(** ** [CodeAnalyzer]

    [self.analyzers] maps [".py"] to the one [PythonAnalyzer]; the logging
    calls write to the log only and are left out. *)

Definition analyzers : list (string * (string -> outcome AnalysisResult)) :=
  [(".py", analyze)].

Fixpoint lookup {V : Type} (d : list (string * V)) (k : string) : option V :=
  match d with
  | [] => None
  | (k', v) :: d' => if String.eqb k k' then Some v else lookup d' k
  end.

Definition analyze_file (path : string) : outcome (option AnalysisResult) :=
  if negb (path_exists path) then Return None
  else match lookup analyzers (suffix path) with
       | None => Return None
       | Some analyzer => result <- analyzer path ;; Return (Some result)
       end.

Definition skip_markers : list string :=
  ["venv"; "__pycache__"; ".git"; "node_modules"].

Definition skipped (file_path : string) : bool :=
  existsb (fun skip => contains skip file_path) skip_markers.

Definition analyze_path (path : string) : outcome (list AnalysisResult) :=
  let results := [] in
  if is_file path then
    result <- analyze_file path ;;
    match result with
    | Some r => Return (results ++ [r])
    | None => Return results
    end
  else if is_dir path then
    for_each (map fst analyzers)
      (fun results ext =>
         for_each (rglob path ("*" ++ ext)%string)
           (fun results file_path =>
              (* Skip virtual environments and cache *)
              if skipped file_path then Return results
              else
                result <- analyze_file file_path ;;
                match result with
                | Some r => Return (results ++ [r])
                | None => Return results
                end)
           results)
      results
  else Return results.

(** ** Reference notions the rules are compared with *)

(** The issues one pass of a loop body adds, seen from an empty result. *)
Definition function_issues (file_path : string) (n : node) : list CodeIssue :=
  issues (function_rules file_path (mkAnalysisResult file_path [] []) n).

Definition class_issues (file_path : string) (n : node) : list CodeIssue :=
  issues (class_rules file_path (mkAnalysisResult file_path [] []) n).

Definition line_issues (file_path : string) (numbered : Z * string)
  : list CodeIssue :=
  issues (line_rules file_path (mkAnalysisResult file_path [] []) numbered).

(** Conditional, loop and exception-handler nodes. *)
Definition is_decision (n : node) : bool :=
  match n with
  | If _ | While _ | For _ | ExceptHandler _ => true
  | _ => false
  end.


(** [k - 1] for a boolean combination of [k] operands, [0] elsewhere. *)
Definition boolop_extra (n : node) : Z :=
  match n with
  | BoolOp _ values => Z.of_nat (List.length values) - 1
  | _ => 0
  end.

Definition sumZ (xs : list Z) : Z := fold_right Z.add 0 xs.

(** What one node adds to the score. *)
Definition decision_weight (n : node) : Z :=
  (if is_decision n then 1 else 0) + boolop_extra n.

(** The parser builds a [BoolOp] from two operands or more. *)
Definition well_formed (t : node) : bool :=
  forallb (fun n => match n with
                    | BoolOp _ values => (2 <=? List.length values)%nat
                    | _ => true
                    end)
          (subtree t).

(** The facts of section 4.2 of the specification. *)
Definition line_span (n : node) : Z :=
  match n with
  | FunctionDef _ lineno (Some e) _ _ _ _ _ =>
      if e =? 0 then 0 else e - lineno + 1
  | _ => 0
  end.

Definition parameter_count (n : node) : Z :=
  match n with
  | FunctionDef _ _ _ a _ _ _ _ => Z.of_nat (List.length (args a))
  | _ => 0
  end.

Definition method_count (n : node) : Z :=
  match n with
  | ClassDef _ _ _ _ body _ _ =>
      Z.of_nat (List.length (filter is_FunctionDef body))
  | _ => 0
  end.

Definition has_type (kind : string) (i : CodeIssue) : bool :=
  String.eqb (issue_type i) kind.

(** The fixed kind-to-severity table of section 4 of the specification. *)
Definition severity_of_kind (kind : string) : option string :=
  if existsb (String.eqb kind)
       ["SYNTAX_ERROR"; "HIGH_COMPLEXITY"; "BARE_EXCEPT"]
  then Some "HIGH"
  else if existsb (String.eqb kind)
            ["LONG_FUNCTION"; "TOO_MANY_PARAMETERS"; "LARGE_CLASS"]
  then Some "MEDIUM"
  else if existsb (String.eqb kind)
            ["MISSING_DOCSTRING"; "LINE_TOO_LONG"; "PENDING_TASK";
             "PRINT_STATEMENT"]
  then Some "LOW"
  else None.

(** [xs] keeps the order of [ys], possibly leaving elements out. *)
Inductive subsequence {A : Type} : list A -> list A -> Prop :=
| subsequence_nil : forall ys, subsequence [] ys
| subsequence_take : forall x xs ys,
    subsequence xs ys -> subsequence (x :: xs) (x :: ys)
| subsequence_drop : forall xs y ys,
    subsequence xs ys -> subsequence xs (y :: ys).

(** The LINE_TOO_LONG issues on line [at_line]. *)
Definition too_long_on (at_line : Z) (i : CodeIssue) : bool :=
  has_type "LINE_TOO_LONG" i && (line i =? at_line).

(** An issue of kind [kind] on line [at_line]. *)
Definition fires (kind : string) (at_line : Z) (l : list CodeIssue) : bool :=
  existsb (fun i => has_type kind i && (line i =? at_line)) l.

(** The declaration rules, read off the table of section 4.2: whenever the
    condition of a rule holds of the declaration [n], the list [l] holds
    the issue of that rule on the line of [n].  The rules are those of a
    [def] function and of a class; a node of any other class, an
    [async def] among them, has no rule to meet. *)
Definition rules_applied (n : node) (l : list CodeIssue) : Prop :=
  match n with
  | FunctionDef _ lineno _ _ _ _ _ _ =>
      (line_span n > MAX_FUNCTION_LENGTH ->
       fires "LONG_FUNCTION" lineno l = true)
      /\ (truthy (get_docstring n) = false ->
          fires "MISSING_DOCSTRING" lineno l = true)
      /\ (parameter_count n > 5 ->
          fires "TOO_MANY_PARAMETERS" lineno l = true)
      /\ (_calculate_complexity n > MAX_COMPLEXITY ->
          fires "HIGH_COMPLEXITY" lineno l = true)
  | ClassDef _ lineno _ _ _ _ _ =>
      (truthy (get_docstring n) = false ->
       fires "MISSING_DOCSTRING" lineno l = true)
      /\ (method_count n > 20 -> fires "LARGE_CLASS" lineno l = true)
  | _ => True
  end.

(** The files of a directory walk that reach an analyzer. *)
Definition eligible (file_path : string) : bool :=
  negb (skipped file_path) && path_exists file_path
  && String.eqb (suffix file_path) ".py".

(** One issue, or none. *)
Definition only_if {A : Type} (cond : bool) (x : A) : list A :=
  if cond then [x] else [].

(** The issue of the line-length rule for line [i]. *)
Definition too_long_issue (p : string) (i : Z) (l : string) : CodeIssue :=
  mkCodeIssue p i "LINE_TOO_LONG" "LOW"
    ("Line exceeds 120 characters (" ++ str_of_int (len l) ++ " chars)")%string
    "Break the line into multiple lines for better readability".

(** The body of the inner loop of [analyze_path]. *)
Definition walk_step (results : list AnalysisResult) (file_path : string)
  : outcome (list AnalysisResult) :=
  if skipped file_path then Return results
  else
    result <- analyze_file file_path ;;
    match result with
    | Some r => Return (results ++ [r])
    | None => Return results
    end.

(** ** Further reference notions *)

(** A line made of white space only (the empty line included). *)
Fixpoint all_space (s : string) : bool :=
  match s with
  | String c s' => isspace c && all_space s'
  | EmptyString => true
  end.

(** The number of newline characters of a text. *)
Fixpoint count_newlines (s : string) : Z :=
  match s with
  | String c s' =>
      (if Ascii.eqb c "010"%char then 1 else 0) + count_newlines s'
  | EmptyString => 0
  end.

(** The kinds of the line rules. *)
Definition lexical_kinds : list string :=
  ["LINE_TOO_LONG"; "PENDING_TASK"; "BARE_EXCEPT"; "PRINT_STATEMENT"].

(** The number of issues of one kind. *)
Definition count_kind (kind : string) (l : list CodeIssue) : nat :=
  List.length (filter (has_type kind) l).

Definition is_SyntaxError (e : exn) : bool :=
  match e with SyntaxError _ _ => true | Exception _ => false end.

(** The result an outcome carries, or an empty one. *)
Definition returned_result (o : outcome AnalysisResult) : AnalysisResult :=
  match o with
  | Return r => r
  | Raise _ => mkAnalysisResult EmptyString [] []
  end.

(** The nodes of a forest level by level: [level] itself, then the
    children of its nodes, then their children, for [depth] levels. *)
Fixpoint level_order (depth : nat) (level : list node) : list node :=
  match depth with
  | O => []
  | S d => level ++ level_order d (flat_map iter_child_nodes level)
  end.

(** A text with its ASCII capitals turned into small letters. *)
Fixpoint lowercase (s : string) : string :=
  match s with
  | String c s' => String (lower c) (lowercase s')
  | EmptyString => EmptyString
  end.

(** The markers of the pending-task rule. *)
Definition pending_markers : list string := ["todo"; "fixme"; "xxx"; "hack"].

(** Whether a text starts with white space. *)
Definition isspace_head (s : string) : bool :=
  match s with
  | String c _ => isspace c
  | EmptyString => false
  end.

(** ** [CodeAnalyzer.print_report]

    Standard output is the list of the texts printed so far, one for each
    call of [print]; a computation ends with a value or an exception, and
    with the output written until then.  The literals of the report that
    hold characters above 255 are kept as the bytes of the source file; the
    report only concatenates them. *)

Definition io (A : Type) : Type := list string -> list string * outcome A.

Definition io_ret {A : Type} (a : A) : io A := fun out => (out, Return a).

Definition io_bind {A B : Type} (m : io A) (k : A -> io B) : io B :=
  fun out =>
    match m out with
    | (out', Return a) => k a out'
    | (out', Raise e) => (out', Raise e)
    end.

Definition io_lift {A : Type} (o : outcome A) : io A := fun out => (out, o).

Definition print (s : string) : io unit :=
  fun out => (out ++ [s], Return tt).

Notation "x <~ m ;; k" := (io_bind m (fun x => k))
  (at level 61, m at next level, right associativity).
Notation "m ;;; k" := (io_bind m (fun _ => k))
  (at level 61, right associativity).

Fixpoint io_for {A S : Type} (xs : list A) (body : S -> A -> io S) (s : S)
  : io S :=
  match xs with
  | [] => io_ret s
  | x :: xs' => s' <~ body s x ;; io_for xs' body s'
  end.

(** [d[k]] *)
Definition getitem {V : Type} (d : list (string * V)) (k : string)
  : outcome V :=
  match lookup d k with
  | Some v => Return v
  | None => Raise (Exception "KeyError")
  end.

(** [s * n] *)
Fixpoint str_mul (s : string) (n : nat) : string :=
  match n with
  | O => EmptyString
  | S k => (s ++ str_mul s k)%string
  end.

Definition nl : string := String "010"%char EmptyString.

(** [sorted(issues, key=lambda x: x.line)]: a stable sort; each issue is
    put in front of the first issue, among those that came after it, whose
    line is not smaller. *)
Fixpoint insert_by_line (x : CodeIssue) (l : list CodeIssue)
  : list CodeIssue :=
  match l with
  | [] => [x]
  | y :: l' =>
      if line x <=? line y then x :: y :: l' else y :: insert_by_line x l'
  end.

Definition sorted_by_line (l : list CodeIssue) : list CodeIssue :=
  fold_right insert_by_line [] l.

Definition severity_icons : list (string * string) :=
  [("HIGH", "ðŸ”´"); ("MEDIUM", "ðŸŸ¡"); ("LOW", "ðŸŸ¢")].

Definition nonempty {A : Type} (l : list A) : bool :=
  match l with [] => false | _ :: _ => true end.

Definition print_report (results : list AnalysisResult) : io unit :=
  let total_issues :=
    sumZ (map (fun r => Z.of_nat (List.length (issues r))) results) in
  print (nl ++ str_mul "=" 60) ;;;
  print "ATENA CODE ANALYSIS REPORT" ;;;
  print (str_mul "=" 60) ;;;
  if negb (nonempty results) then print (nl ++ "No files analyzed.")
  else
    print (nl ++ "Files analyzed: "
           ++ str_of_int (Z.of_nat (List.length results))) ;;;
    print ("Total issues found: " ++ str_of_int total_issues) ;;;
    severity_counts <~
      io_for results
        (fun counts result =>
           io_for (issues result)
             (fun counts issue =>
                v <~ io_lift (getitem counts (severity issue)) ;;
                io_ret (setitem counts (severity issue) (v + 1)))
             counts)
        [("HIGH", 0); ("MEDIUM", 0); ("LOW", 0)] ;;
    print (nl ++ "By severity:") ;;;
    high <~ io_lift (getitem severity_counts "HIGH") ;;
    print ("  ðŸ”´ HIGH:   " ++ str_of_int high) ;;;
    medium <~ io_lift (getitem severity_counts "MEDIUM") ;;
    print ("  ðŸŸ¡ MEDIUM: " ++ str_of_int medium) ;;;
    low <~ io_lift (getitem severity_counts "LOW") ;;
    print ("  ðŸŸ¢ LOW:    " ++ str_of_int low) ;;;
    io_for results
      (fun _ result =>
         if nonempty (issues result) then
           print (nl ++ str_mul "â”€" 60) ;;;
           print ("ðŸ“„ " ++ file_path result) ;;;
           (if nonempty (metrics result) then
              print ("   Lines: "
                     ++ match lookup (metrics result) "total_lines" with
                        | Some v => str_of_int v
                        | None => "N/A"
                        end)
            else io_ret tt) ;;;
           io_for (sorted_by_line (issues result))
             (fun _ issue =>
                severity_icon <~
                  io_lift (getitem severity_icons (severity issue)) ;;
                print (nl ++ "   " ++ severity_icon ++ " Line "
                       ++ str_of_int (line issue) ++ ": ["
                       ++ issue_type issue ++ "]") ;;;
                print ("      " ++ message issue) ;;;
                print ("      ðŸ’¡ " ++ suggestion issue))
             tt
         else io_ret tt)
      tt ;;;
    print (nl ++ str_mul "=" 60).

(** *** Reference notions for the report *)

Definition known_severity (i : CodeIssue) : bool :=
  existsb (String.eqb (severity i)) ["HIGH"; "MEDIUM"; "LOW"].

Definition all_issues (results : list AnalysisResult) : list CodeIssue :=
  flat_map issues results.

Definition count_severity (s : string) (l : list CodeIssue) : Z :=
  Z.of_nat (List.length (filter (fun i => String.eqb (severity i) s) l)).

(** What the report prints before the details of the files. *)
Definition report_summary (results : list AnalysisResult) : list string :=
  [(nl ++ str_mul "=" 60)%string;
   "ATENA CODE ANALYSIS REPORT";
   str_mul "=" 60;
   (nl ++ "Files analyzed: "
    ++ str_of_int (Z.of_nat (List.length results)))%string;
   ("Total issues found: "
    ++ str_of_int (Z.of_nat (List.length (all_issues results))))%string;
   (nl ++ "By severity:")%string;
   ("  ðŸ”´ HIGH:   "
    ++ str_of_int (count_severity "HIGH" (all_issues results)))%string;
   ("  ðŸŸ¡ MEDIUM: "
    ++ str_of_int (count_severity "MEDIUM" (all_issues results)))%string;
   ("  ðŸŸ¢ LOW:    "
    ++ str_of_int (count_severity "LOW" (all_issues results)))%string].

(** The three texts printed for one issue. *)
Definition issue_lines (i : CodeIssue) : list string :=
  [(nl ++ "   "
    ++ match lookup severity_icons (severity i) with
       | Some icon => icon
       | None => EmptyString
       end
    ++ " Line " ++ str_of_int (line i) ++ ": [" ++ issue_type i ++ "]")%string;
   ("      " ++ message i)%string;
   ("      ðŸ’¡ " ++ suggestion i)%string].

(** The texts printed for one file. *)
Definition file_lines (r : AnalysisResult) : list string :=
  if nonempty (issues r) then
    [(nl ++ str_mul "â”€" 60)%string; ("ðŸ“„ " ++ file_path r)%string]
    ++ (if nonempty (metrics r) then
          [("   Lines: "
            ++ match lookup (metrics r) "total_lines" with
               | Some v => str_of_int v
               | None => "N/A"
               end)%string]
        else [])
    ++ flat_map issue_lines (sorted_by_line (issues r))
  else [].

(** Issues compared by line. *)
Definition line_le (i j : CodeIssue) : Prop := line i <= line j.

(** The body of the counting loop of [print_report]. *)
Definition count_step (counts : dict) (issue : CodeIssue) : io dict :=
  v <~ io_lift (getitem counts (severity issue)) ;;
  io_ret (setitem counts (severity issue) (v + 1)).

(** The three counters. *)
Definition counters (high medium low : Z) : dict :=
  [("HIGH", high); ("MEDIUM", medium); ("LOW", low)].

(** The body of the loop over the issues of a file. *)
Definition print_issue (_ : unit) (issue : CodeIssue) : io unit :=
  severity_icon <~ io_lift (getitem severity_icons (severity issue)) ;;
  print (nl ++ "   " ++ severity_icon ++ " Line "
         ++ str_of_int (line issue) ++ ": ["
         ++ issue_type issue ++ "]") ;;;
  print ("      " ++ message issue) ;;;
  print ("      ðŸ’¡ " ++ suggestion issue).

(** The body of the loop over the files of the report. *)
Definition print_file (_ : unit) (result : AnalysisResult) : io unit :=
  if nonempty (issues result) then
    print (nl ++ str_mul "â”€" 60) ;;;
    print ("ðŸ“„ " ++ file_path result) ;;;
    (if nonempty (metrics result) then
       print ("   Lines: "
              ++ match lookup (metrics result) "total_lines" with
                 | Some v => str_of_int v
                 | None => "N/A"
                 end)
     else io_ret tt) ;;;
    io_for (sorted_by_line (issues result)) print_issue tt
  else io_ret tt.

(** What the report has printed when the counting loop starts. *)
Definition report_opening (results : list AnalysisResult) : list string :=
  [(nl ++ str_mul "=" 60)%string;
   "ATENA CODE ANALYSIS REPORT";
   str_mul "=" 60;
   (nl ++ "Files analyzed: "
    ++ str_of_int (Z.of_nat (List.length results)))%string;
   ("Total issues found: "
    ++ str_of_int (Z.of_nat (List.length (all_issues results))))%string].

(** What the report prints when no exception stops it. *)
Definition report_text (results : list AnalysisResult) : list string :=
  if nonempty results then
    report_summary results ++ flat_map file_lines results
    ++ [(nl ++ str_mul "=" 60)%string]
  else
    [(nl ++ str_mul "=" 60)%string;
     "ATENA CODE ANALYSIS REPORT";
     str_mul "=" 60;
     (nl ++ "No files analyzed.")%string].

(** ** The traversal *)

Lemma subtree_unfold (n : node) :
  subtree n = n :: flat_map subtree (iter_child_nodes n).
Proof.
  destruct n as [b|nm ln el a b d r t|nm ln ba kw b d t|a|c|c|c|c|o v|nm c];
    simpl; try reflexivity.
  - destruct a as [po ar va ko kd kw de]; destruct va, kw, r;
      unfold arguments_children; simpl;
      repeat (rewrite !flat_map_app; simpl);
      rewrite ?app_nil_r, <- ?app_assoc; reflexivity.
  - repeat (rewrite !flat_map_app; simpl). reflexivity.
  - destruct a as [po ar va ko kd kw de]; destruct va, kw;
      unfold arguments_children; simpl;
      repeat (rewrite !flat_map_app; simpl);
      rewrite ?app_nil_r, <- ?app_assoc; reflexivity.
Qed.

Lemma size_unfold (n : node) :
  size n = S (List.length (flat_map subtree (iter_child_nodes n))).
Proof. unfold size. rewrite subtree_unfold. reflexivity. Qed.

(** With a step for every node still reachable from the queue, the loop
    yields each of those nodes once. *)
Lemma walk_queue_perm (steps : nat) :
  forall todo,
    (List.length (flat_map subtree todo) <= steps)%nat ->
    Permutation (walk_queue steps todo) (flat_map subtree todo).
Proof.
  induction steps as [|k IH]; intros todo Hlen.
  - destruct todo as [|n rest]; simpl in *; [constructor|].
    rewrite subtree_unfold in Hlen. simpl in Hlen. lia.
  - destruct todo as [|n rest]; simpl; [constructor|].
    rewrite subtree_unfold. simpl. constructor.
    rewrite IH.
    + rewrite flat_map_app. apply Permutation_app_comm.
    + simpl in Hlen. rewrite subtree_unfold in Hlen. simpl in Hlen.
      rewrite flat_map_app, !length_app in *. lia.
Qed.

Lemma walk_perm (n : node) : Permutation (walk n) (subtree n).
Proof.
  unfold walk. rewrite walk_queue_perm; simpl; rewrite app_nil_r.
  - reflexivity.
  - unfold size. lia.
Qed.

Lemma walk_In (t n : node) : In n (walk t) <-> In n (subtree t).
Proof.
  split; apply Permutation_in; [|symmetry]; apply walk_perm.
Qed.

(** A node of the subtree brings its whole subtree along, as one block. *)
Lemma subtree_block :
  forall k t n,
    (size t <= k)%nat -> In n (subtree t) ->
    exists before after, subtree t = before ++ subtree n ++ after.
Proof.
  induction k as [|k IH]; intros t n Hk Hin.
  - rewrite size_unfold in Hk. lia.
  - rewrite subtree_unfold in Hin. destruct Hin as [->|Hin].
    + exists [], []. rewrite app_nil_r. reflexivity.
    + apply in_flat_map in Hin. destruct Hin as [c [Hc Hn]].
      destruct (in_split _ _ Hc) as [l1 [l2 Hsplit]].
      assert (Hsz : (size c <= k)%nat).
      { rewrite size_unfold, Hsplit, flat_map_app, length_app in Hk.
        simpl in Hk. rewrite length_app in Hk. unfold size. lia. }
      destruct (IH c n Hsz Hn) as [b [a Hb]].
      exists (t :: flat_map subtree l1 ++ b), (a ++ flat_map subtree l2).
      rewrite (subtree_unfold t), Hsplit, flat_map_app. simpl.
      rewrite Hb, <- !app_assoc. reflexivity.
Qed.

(** ** Sums over a traversal *)

Lemma sumZ_app (xs ys : list Z) : sumZ (xs ++ ys) = sumZ xs + sumZ ys.
Proof. induction xs as [|x xs IH]; simpl; lia. Qed.

Lemma sumZ_perm (xs ys : list Z) : Permutation xs ys -> sumZ xs = sumZ ys.
Proof. induction 1; simpl; lia. Qed.

Lemma sumZ_nonneg (xs : list Z) : Forall (fun x => 0 <= x) xs -> 0 <= sumZ xs.
Proof. induction 1; simpl; lia. Qed.


Lemma complexity_step (c : Z) (n : node) :
  match n with
  | If _ | While _ | For _ | ExceptHandler _ => c + 1
  | BoolOp _ values => c + (Z.of_nat (List.length values) - 1)
  | _ => c
  end = c + decision_weight n.
Proof. destruct n; unfold decision_weight; simpl; lia. Qed.

Lemma complexity_fold (l : list node) :
  forall init,
    fold_left
      (fun complexity child =>
         match child with
         | If _ | While _ | For _ | ExceptHandler _ => complexity + 1
         | BoolOp _ values =>
             complexity + (Z.of_nat (List.length values) - 1)
         | _ => complexity
         end) l init
    = init + sumZ (map decision_weight l).
Proof.
  induction l as [|x l IH]; intros init; simpl.
  - lia.
  - rewrite complexity_step, IH. lia.
Qed.

Lemma complexity_weight (n : node) :
  _calculate_complexity n = 1 + sumZ (map decision_weight (subtree n)).
Proof.
  unfold _calculate_complexity. rewrite complexity_fold. f_equal.
  apply sumZ_perm, Permutation_map, walk_perm.
Qed.

Lemma sum_decisions (l : list node) :
  sumZ (map decision_weight l)
  = count_if is_decision l + sumZ (map boolop_extra l).
Proof.
  unfold count_if.
  induction l as [|x l IH]; simpl; [reflexivity|].
  rewrite IH. unfold decision_weight.
  destruct (is_decision x); simpl List.length; lia.
Qed.

Lemma well_formed_weights (t : node) :
  well_formed t = true ->
  Forall (fun x => 0 <= x) (map decision_weight (subtree t)).
Proof.
  unfold well_formed. rewrite forallb_forall. intros H.
  apply Forall_map, Forall_forall. intros n Hn. specialize (H n Hn).
  destruct n; unfold decision_weight; simpl; try lia.
  apply Nat.leb_le in H. lia.
Qed.

(** ** Cyclomatic complexity *)


(** C8: when [g] lies strictly inside [f], the subtree of [g] is a block of
    the subtree of [f], and the score of [f] is the score of [g] plus what
    the nodes around that block add: every decision point of [g] is counted
    once in [g]'s own score and once more in [f]'s. *)
Theorem nested_decisions_counted_in_outer (f g : node) :
  is_FunctionDef f = true ->
  In g (flat_map subtree (iter_child_nodes f)) ->
  exists before after,
    subtree f = before ++ subtree g ++ after
    /\ _calculate_complexity g = 1 + sumZ (map decision_weight (subtree g))
    /\ _calculate_complexity f
       = _calculate_complexity g
         + sumZ (map decision_weight before)
         + sumZ (map decision_weight after)
    /\ (well_formed f = true ->
        _calculate_complexity g <= _calculate_complexity f).
Proof.
  intros _ Hin.
  assert (Hsub : In g (subtree f)).
  { rewrite subtree_unfold. right. exact Hin. }
  destruct (subtree_block (size f) f g (le_n _) Hsub) as [b [a Hb]].
  exists b, a. split; [exact Hb|]. split; [apply complexity_weight|].
  assert (Heq : _calculate_complexity f
                = _calculate_complexity g
                  + sumZ (map decision_weight b)
                  + sumZ (map decision_weight a)).
  { rewrite !complexity_weight, Hb, !map_app, !sumZ_app. lia. }
  split; [exact Heq|].
  intros Hwf. pose proof (well_formed_weights f Hwf) as Hall.
  rewrite Hb, !map_app in Hall.
  apply Forall_app in Hall. destruct Hall as [Hbef Hall].
  apply Forall_app in Hall. destruct Hall as [_ Haft].
  pose proof (sumZ_nonneg _ Hbef). pose proof (sumZ_nonneg _ Haft). lia.
Qed.

(** ** The rule loops append to the result *)

Lemma append_if_issues (c : bool) (r : AnalysisResult) (i : CodeIssue) :
  issues (append_if c r i) = issues r ++ only_if c i.
Proof. destruct c; simpl; [reflexivity|]. rewrite app_nil_r. reflexivity. Qed.

Lemma append_if_metrics (c : bool) (r : AnalysisResult) (i : CodeIssue) :
  metrics (append_if c r i) = metrics r.
Proof. destruct c; reflexivity. Qed.

Lemma function_rules_issues (p : string) (r : AnalysisResult) (n : node) :
  issues (function_rules p r n) = issues r ++ function_issues p n.
Proof.
  unfold function_issues.
  destruct n; simpl; rewrite ?app_nil_r; try reflexivity.
  rewrite !append_if_issues. simpl. rewrite <- !app_assoc. reflexivity.
Qed.

Lemma class_rules_issues (p : string) (r : AnalysisResult) (n : node) :
  issues (class_rules p r n) = issues r ++ class_issues p n.
Proof.
  unfold class_issues.
  destruct n; simpl; rewrite ?app_nil_r; try reflexivity.
  rewrite !append_if_issues. simpl. rewrite <- !app_assoc. reflexivity.
Qed.

Lemma line_rules_issues (p : string) (r : AnalysisResult) (x : Z * string) :
  issues (line_rules p r x) = issues r ++ line_issues p x.
Proof.
  unfold line_issues. destruct x as [i l]. simpl.
  rewrite !append_if_issues. simpl. rewrite <- !app_assoc. reflexivity.
Qed.

Lemma function_rules_metrics (p : string) (r : AnalysisResult) (n : node) :
  metrics (function_rules p r n) = metrics r.
Proof. destruct n; simpl; rewrite ?append_if_metrics; reflexivity. Qed.

Lemma class_rules_metrics (p : string) (r : AnalysisResult) (n : node) :
  metrics (class_rules p r n) = metrics r.
Proof. destruct n; simpl; rewrite ?append_if_metrics; reflexivity. Qed.

Lemma loop_issues {A : Type} (body : AnalysisResult -> A -> AnalysisResult)
  (added : A -> list CodeIssue) :
  (forall r x, issues (body r x) = issues r ++ added x) ->
  forall xs r,
    issues (fold_left body xs r) = issues r ++ flat_map added xs.
Proof.
  intros Hbody. induction xs as [|x xs IH]; intros r; simpl.
  - rewrite app_nil_r. reflexivity.
  - rewrite IH, Hbody, <- app_assoc. reflexivity.
Qed.

Lemma _analyze_functions_issues (tree : node) (p : string)
  (r : AnalysisResult) :
  issues (_analyze_functions tree p r)
  = issues r ++ flat_map (function_issues p) (walk tree).
Proof. apply loop_issues, function_rules_issues. Qed.

Lemma _analyze_classes_issues (tree : node) (p : string)
  (r : AnalysisResult) :
  issues (_analyze_classes tree p r)
  = issues r ++ flat_map (class_issues p) (walk tree).
Proof. apply loop_issues, class_rules_issues. Qed.

Lemma _check_common_issues_issues (content p : string)
  (r : AnalysisResult) :
  issues (_check_common_issues content p r)
  = issues r ++ flat_map (line_issues p) (enumerate (split_lines content) 1).
Proof. apply loop_issues, line_rules_issues. Qed.

(** What [analyze] returns once the file is read and parsed. *)
Lemma analyze_parsed (p content : string) (tree : node) :
  read_text p = Return content ->
  ast_parse content = Return tree ->
  exists r,
    analyze p = Return r
    /\ issues r
       = flat_map (function_issues p) (walk tree)
         ++ flat_map (class_issues p) (walk tree)
         ++ flat_map (line_issues p) (enumerate (split_lines content) 1).
Proof.
  intros Hread Hparse. unfold analyze. rewrite Hread. simpl.
  rewrite Hparse. simpl. eexists. split; [reflexivity|].
  rewrite _check_common_issues_issues, _analyze_classes_issues,
    _analyze_functions_issues. simpl. rewrite <- app_assoc. reflexivity.
Qed.

(** The explicit shape of what each loop body adds. *)
Lemma function_issues_shape (p name : string) (lineno : Z)
  (end_lineno : option Z) (a : arguments_of node) (b d : list node)
  (ret : option node) (t : list node) :
  let f := FunctionDef name lineno end_lineno a b d ret t in
  function_issues p f
  = only_if (line_span f >? MAX_FUNCTION_LENGTH)
      (mkCodeIssue p lineno "LONG_FUNCTION" "MEDIUM"
         ("Function '" ++ name ++ "' has " ++ str_of_int (line_span f)
          ++ " lines (max: " ++ str_of_int MAX_FUNCTION_LENGTH ++ ")")%string
         "Consider breaking this function into smaller, focused functions")
    ++ only_if (negb (truthy (get_docstring f)))
         (mkCodeIssue p lineno "MISSING_DOCSTRING" "LOW"
            ("Function '" ++ name ++ "' lacks a docstring")%string
            "Add a docstring describing the function's purpose and parameters")
    ++ only_if (parameter_count f >? 5)
         (mkCodeIssue p lineno "TOO_MANY_PARAMETERS" "MEDIUM"
            ("Function '" ++ name ++ "' has "
             ++ str_of_int (parameter_count f) ++ " parameters")%string
            "Consider using a configuration object or dataclass to group parameters")
    ++ only_if (_calculate_complexity f >? MAX_COMPLEXITY)
         (mkCodeIssue p lineno "HIGH_COMPLEXITY" "HIGH"
            ("Function '" ++ name ++ "' has complexity "
             ++ str_of_int (_calculate_complexity f) ++ " (max: "
             ++ str_of_int MAX_COMPLEXITY ++ ")")%string
            "Reduce complexity by extracting conditions into separate functions").
Proof.
  intros f. unfold function_issues, f. cbn [function_rules].
  rewrite !append_if_issues, <- !app_assoc. cbn [issues app].
  destruct end_lineno; reflexivity.
Qed.

Lemma class_issues_shape (p name : string) (lineno : Z)
  (ba kw b d t : list node) :
  let c := ClassDef name lineno ba kw b d t in
  class_issues p c
  = only_if (negb (truthy (get_docstring c)))
      (mkCodeIssue p lineno "MISSING_DOCSTRING" "LOW"
         ("Class '" ++ name ++ "' lacks a docstring")%string
         "Add a docstring describing the class's purpose")
    ++ only_if (method_count c >? 20)
         (mkCodeIssue p lineno "LARGE_CLASS" "MEDIUM"
            ("Class '" ++ name ++ "' has " ++ str_of_int (method_count c)
             ++ " methods")%string
            "Consider splitting into smaller, focused classes (Single Responsibility)").
Proof.
  intros c. unfold class_issues, c. cbn [class_rules].
  rewrite !append_if_issues, <- !app_assoc. reflexivity.
Qed.

Lemma line_issues_shape (p : string) (i : Z) (l : string) :
  line_issues p (i, l)
  = only_if (len l >? 120)
      (mkCodeIssue p i "LINE_TOO_LONG" "LOW"
         ("Line exceeds 120 characters (" ++ str_of_int (len l)
          ++ " chars)")%string
         "Break the line into multiple lines for better readability")
    ++ only_if (search pending_here l)
         (mkCodeIssue p i "PENDING_TASK" "LOW"
            "Found pending task marker"
            "Address or track this task in your issue tracker")
    ++ only_if (search bare_except_here l)
         (mkCodeIssue p i "BARE_EXCEPT" "HIGH"
            "Bare except clause catches all exceptions"
            "Specify the exception type(s) to catch")
    ++ only_if (print_call_at_start l && negb (contains "# noqa" l))
         (mkCodeIssue p i "PRINT_STATEMENT" "LOW"
            "Using print() instead of logging"
            "Consider using the logging module for better control").
Proof.
  unfold line_issues. cbn [line_rules].
  rewrite !append_if_issues, <- !app_assoc. reflexivity.
Qed.

Lemma function_issues_other (p : string) (n : node) :
  is_FunctionDef n = false -> function_issues p n = [].
Proof. destruct n; simpl; intros H; try reflexivity; discriminate. Qed.

Lemma class_issues_other (p : string) (n : node) :
  is_ClassDef n = false -> class_issues p n = [].
Proof. destruct n; simpl; intros H; try reflexivity; discriminate. Qed.

(** ** Syntax errors *)

(** C2: when the content of a file does not parse, [analyze] returns a
    result whose only issue is the SYNTAX_ERROR of severity HIGH, on the
    reported line or on line 0, with no metric and nothing from the tree
    rules or the line rules. *)
Theorem syntax_error_single_issue (p content msg : string)
  (lineno : option Z) :
  read_text p = Return content ->
  ast_parse content = Raise (SyntaxError msg lineno) ->
  analyze p
  = Return
      (mkAnalysisResult p
         [mkCodeIssue p (match lineno with Some n => n | None => 0 end)
            "SYNTAX_ERROR" "HIGH" ("Syntax error: " ++ msg)%string
            "Fix the syntax error before proceeding"]
         []).
Proof.
  intros Hread Hparse. unfold analyze. rewrite Hread. simpl.
  rewrite Hparse. simpl. unfold append. simpl. do 3 f_equal.
  destruct lineno as [n|]; simpl; [|reflexivity].
  destruct (Z.eqb_spec n 0); congruence.
Qed.

(** ** Kinds and severities *)

Ltac split_issue H :=
  repeat (apply in_app_or in H; destruct H as [H|H]);
  unfold only_if in H;
  match type of H with
  | In _ (if ?c then _ else _) => destruct c; simpl in H
  | _ => idtac
  end;
  try contradiction;
  try (destruct H as [H|H]; [subst|contradiction]).

Lemma function_issues_severity (p : string) (n : node) (i : CodeIssue) :
  In i (function_issues p n) ->
  severity_of_kind (issue_type i) = Some (severity i).
Proof.
  destruct n; try (simpl; contradiction).
  rewrite function_issues_shape. intros H. split_issue H; reflexivity.
Qed.

Lemma class_issues_severity (p : string) (n : node) (i : CodeIssue) :
  In i (class_issues p n) ->
  severity_of_kind (issue_type i) = Some (severity i).
Proof.
  destruct n; try (simpl; contradiction).
  rewrite class_issues_shape. intros H. split_issue H; reflexivity.
Qed.

Lemma line_issues_severity (p : string) (x : Z * string) (i : CodeIssue) :
  In i (line_issues p x) ->
  severity_of_kind (issue_type i) = Some (severity i).
Proof.
  destruct x as [k l]. rewrite line_issues_shape.
  intros H. split_issue H; reflexivity.
Qed.

(** C7: in every result of [analyze], the severity of an issue is the one
    the fixed table gives for its kind. *)
Theorem severity_fixed_by_kind (p : string) (r : AnalysisResult)
  (i : CodeIssue) :
  analyze p = Return r ->
  In i (issues r) ->
  severity_of_kind (issue_type i) = Some (severity i).
Proof.
  intros Hrun Hin.
  destruct (read_text p) as [content|e] eqn:Hread.
  - destruct (ast_parse content) as [tree|e] eqn:Hparse.
    + destruct (analyze_parsed p content tree Hread Hparse) as [r' [Hr' Hi]].
      rewrite Hrun in Hr'. injection Hr' as <-. rewrite Hi in Hin.
      apply in_app_or in Hin. destruct Hin as [Hin|Hin];
        [|apply in_app_or in Hin; destruct Hin as [Hin|Hin]];
        apply in_flat_map in Hin; destruct Hin as [x [_ Hx]].
      * eapply function_issues_severity; eassumption.
      * eapply class_issues_severity; eassumption.
      * eapply line_issues_severity; eassumption.
    + unfold analyze in Hrun. rewrite Hread in Hrun. simpl in Hrun.
      rewrite Hparse in Hrun. simpl in Hrun.
      destruct e; [|discriminate]. injection Hrun as <-.
      simpl in Hin. destruct Hin as [<-|[]]. reflexivity.
  - unfold analyze in Hrun. rewrite Hread in Hrun. simpl in Hrun.
    destruct e; [|discriminate]. injection Hrun as <-.
    simpl in Hin. destruct Hin as [<-|[]]. reflexivity.
Qed.

(** ** Parameter count *)

(** C9: TOO_MANY_PARAMETERS fires on a function exactly when [args.args],
    the plain positional-or-keyword parameters, has more than 5 entries;
    [posonlyargs], [vararg], [kwonlyargs] and [kwarg] play no part, so with
    at most 5 plain parameters the rule is silent whatever they hold. *)
Theorem too_many_parameters_counts_plain_only (p name : string)
  (lineno : Z) (end_lineno : option Z) (a : arguments_of node)
  (b d : list node) (ret : option node) (t : list node) :
  existsb (has_type "TOO_MANY_PARAMETERS")
    (function_issues p (FunctionDef name lineno end_lineno a b d ret t))
  = (Z.of_nat (List.length (args a)) >? 5).
Proof.
  rewrite function_issues_shape. rewrite !existsb_app.
  unfold only_if, parameter_count.
  repeat match goal with
         | |- context [if ?c then [_] else []] => destruct c
         end; reflexivity.
Qed.

(** ** Every declaration is visited *)

Lemma fires_app (kind : string) (k : Z) (l1 l2 : list CodeIssue) :
  fires kind k (l1 ++ l2) = fires kind k l1 || fires kind k l2.
Proof. apply existsb_app. Qed.

Lemma fires_incl (kind : string) (k : Z) (l1 l2 : list CodeIssue) :
  incl l1 l2 -> fires kind k l1 = true -> fires kind k l2 = true.
Proof.
  unfold fires. rewrite !existsb_exists.
  intros Hincl [i [Hi Hp]]. exists i. split; [apply Hincl, Hi|exact Hp].
Qed.

Lemma rules_applied_own (p : string) (n : node) :
  rules_applied n (function_issues p n ++ class_issues p n).
Proof.
  destruct n; cbn [rules_applied]; try exact I.
  - rewrite class_issues_other by reflexivity. rewrite app_nil_r.
    rewrite function_issues_shape. unfold only_if.
    repeat split; intros H; rewrite !fires_app.
    + apply Z.gtb_gt in H. rewrite H. unfold fires. simpl.
      rewrite Z.eqb_refl. reflexivity.
    + rewrite H. unfold fires at 2. simpl.
      rewrite Z.eqb_refl, orb_true_r. reflexivity.
    + apply Z.gtb_gt in H. rewrite H. unfold fires at 3. simpl.
      rewrite Z.eqb_refl, !orb_true_r. reflexivity.
    + apply Z.gtb_gt in H. rewrite H. unfold fires at 4. simpl.
      rewrite Z.eqb_refl, !orb_true_r. reflexivity.
  - rewrite function_issues_other by reflexivity. simpl app.
    rewrite class_issues_shape. unfold only_if.
    repeat split; intros H; rewrite !fires_app.
    + rewrite H. unfold fires at 1. simpl.
      rewrite Z.eqb_refl. reflexivity.
    + apply Z.gtb_gt in H. rewrite H. unfold fires at 2. simpl.
      rewrite Z.eqb_refl, !orb_true_r. reflexivity.
Qed.

Lemma rules_applied_incl (n : node) (l1 l2 : list CodeIssue) :
  incl l1 l2 -> rules_applied n l1 -> rules_applied n l2.
Proof.
  intros Hincl. destruct n; simpl; try (intros; exact I).
  - intros [H1 [H2 [H3 H4]]].
    repeat split; intros H; eapply fires_incl; eauto.
  - intros [H1 H2].
    repeat split; intros H; eapply fires_incl; eauto.
Qed.

(** C3, as the code has it: once a file parses, the traversal yields each
    node of the tree exactly once; every [def] function ([ast.FunctionDef])
    and every class ([ast.ClassDef]), at any depth, is reached, and the
    result holds what each declaration rule gives for it.  A node of any
    other class is reached and not checked: each issue of the result comes
    from a [def] function, from a class, or from a line of the text. *)
Theorem every_declaration_checked (p content : string) (tree : node) :
  read_text p = Return content ->
  ast_parse content = Return tree ->
  Permutation (walk tree) (subtree tree)
  /\ exists r,
       analyze p = Return r
       /\ (forall n,
             In n (subtree tree) ->
             is_FunctionDef n || is_ClassDef n = true ->
             In n (walk tree)
             /\ incl (function_issues p n) (issues r)
             /\ incl (class_issues p n) (issues r)
             /\ rules_applied n (issues r))
       /\ (forall i,
             In i (issues r) ->
             (exists n,
                In n (subtree tree) /\ is_FunctionDef n = true
                /\ In i (function_issues p n))
             \/ (exists n,
                   In n (subtree tree) /\ is_ClassDef n = true
                   /\ In i (class_issues p n))
             \/ In i (flat_map (line_issues p)
                        (enumerate (split_lines content) 1))).
Proof.
  intros Hread Hparse.
  split; [apply walk_perm|].
  destruct (analyze_parsed p content tree Hread Hparse) as [r [Hr Hi]].
  exists r. split; [exact Hr|]. split.
  - intros n Hin _.
    assert (Hwalk : In n (walk tree)) by (apply walk_In, Hin).
    assert (Hf : incl (function_issues p n) (issues r)).
    { intros i Hi'. rewrite Hi. apply in_or_app. left.
      apply in_flat_map. exists n. split; assumption. }
    assert (Hc : incl (class_issues p n) (issues r)).
    { intros i Hi'. rewrite Hi. apply in_or_app. right.
      apply in_or_app. left.
      apply in_flat_map. exists n. split; assumption. }
    repeat split; try assumption.
    eapply rules_applied_incl; [|apply (rules_applied_own p n)].
    apply incl_app; assumption.
  - intros i Hin. rewrite Hi in Hin.
    apply in_app_or in Hin. destruct Hin as [Hin|Hin].
    + left. apply in_flat_map in Hin. destruct Hin as [n [Hn Hin]].
      exists n. split; [apply walk_In, Hn|]. split; [|exact Hin].
      destruct (is_FunctionDef n) eqn:Hk; [reflexivity|].
      rewrite function_issues_other in Hin by exact Hk. contradiction.
    + apply in_app_or in Hin. destruct Hin as [Hin|Hin].
      * right. left. apply in_flat_map in Hin. destruct Hin as [n [Hn Hin]].
        exists n. split; [apply walk_In, Hn|]. split; [|exact Hin].
        destruct (is_ClassDef n) eqn:Hk; [reflexivity|].
        rewrite class_issues_other in Hin by exact Hk. contradiction.
      * right. right. exact Hin.
Qed.

(** ** The line-length rule *)

Lemma flat_map_filter_nil {A : Type} (sel : CodeIssue -> bool)
  (f : A -> list CodeIssue) (xs : list A) :
  (forall x, In x xs -> filter sel (f x) = []) ->
  filter sel (flat_map f xs) = [].
Proof.
  induction xs as [|x xs IH]; intros H; simpl; [reflexivity|].
  rewrite filter_app, (H x) by (left; reflexivity).
  apply IH. intros y Hy. apply H. right. exact Hy.
Qed.

Lemma function_issues_not_too_long (p : string) (k : Z) (n : node) :
  filter (too_long_on k) (function_issues p n) = [].
Proof.
  destruct n; try reflexivity.
  rewrite function_issues_shape, !filter_app. unfold only_if.
  repeat match goal with
         | |- context [if ?c then [_] else []] => destruct c
         end; reflexivity.
Qed.

Lemma class_issues_not_too_long (p : string) (k : Z) (n : node) :
  filter (too_long_on k) (class_issues p n) = [].
Proof.
  destruct n; try reflexivity.
  rewrite class_issues_shape, !filter_app. unfold only_if.
  repeat match goal with
         | |- context [if ?c then [_] else []] => destruct c
         end; reflexivity.
Qed.

Lemma line_issues_too_long (p : string) (k i : Z) (l : string) :
  filter (too_long_on k) (line_issues p (i, l))
  = if i =? k then only_if (len l >? 120) (too_long_issue p i l) else [].
Proof.
  rewrite line_issues_shape, !filter_app. unfold only_if, too_long_on.
  destruct (i =? k) eqn:E;
    repeat match goal with
           | |- context [if ?c then [_] else []] => destruct c
           end; cbn -[Z.eqb]; rewrite ?E; reflexivity.
Qed.

Lemma later_lines_not_on (p : string) (lines : list string) :
  forall start k,
    k < start ->
    filter (too_long_on k) (flat_map (line_issues p) (enumerate lines start))
    = [].
Proof.
  induction lines as [|l lines IH]; intros start k Hlt; simpl;
    [reflexivity|].
  rewrite filter_app, line_issues_too_long, IH by lia.
  destruct (Z.eqb_spec start k); [lia|reflexivity].
Qed.

Lemma numbered_line_too_long (p : string) (lines : list string) :
  forall start j l,
    nth_error lines j = Some l ->
    filter (too_long_on (start + Z.of_nat j))
      (flat_map (line_issues p) (enumerate lines start))
    = only_if (len l >? 120) (too_long_issue p (start + Z.of_nat j) l).
Proof.
  induction lines as [|x lines IH]; intros start j l Hnth.
  - destruct j; discriminate.
  - destruct j as [|j]; simpl in Hnth; simpl flat_map;
      rewrite filter_app, line_issues_too_long.
    + injection Hnth as ->. rewrite Z.add_0_r, Z.eqb_refl.
      rewrite later_lines_not_on by lia. apply app_nil_r.
    + destruct (Z.eqb_spec start (start + Z.of_nat (S j))); [lia|].
      replace (start + Z.of_nat (S j)) with (start + 1 + Z.of_nat j) by lia.
      apply IH. exact Hnth.
Qed.

(** C5: for the line at index [j] of a parsed file (line [j + 1] of the
    report), the result holds exactly one LINE_TOO_LONG issue on that line,
    of severity LOW, when the line is longer than 120 characters, and none
    when it has 120 characters or fewer. *)
Theorem line_too_long_exactly_once (p content : string) (tree : node)
  (j : nat) (l : string) :
  read_text p = Return content ->
  ast_parse content = Return tree ->
  nth_error (split_lines content) j = Some l ->
  exists r,
    analyze p = Return r
    /\ filter (too_long_on (Z.of_nat j + 1)) (issues r)
       = if len l >? 120
         then [mkCodeIssue p (Z.of_nat j + 1) "LINE_TOO_LONG" "LOW"
                 ("Line exceeds 120 characters (" ++ str_of_int (len l)
                  ++ " chars)")%string
                 "Break the line into multiple lines for better readability"]
         else [].
Proof.
  intros Hread Hparse Hnth.
  destruct (analyze_parsed p content tree Hread Hparse) as [r [Hr Hi]].
  exists r. split; [exact Hr|].
  rewrite Hi, !filter_app.
  rewrite !flat_map_filter_nil
    by (intros; first [apply function_issues_not_too_long
                      |apply class_issues_not_too_long]).
  simpl app. replace (Z.of_nat j + 1) with (1 + Z.of_nat j) by lia.
  rewrite (numbered_line_too_long p _ 1 j l Hnth). reflexivity.
Qed.

(** ** Order of the issues *)

Lemma flat_map_selected {A B : Type} (sel : A -> bool) (f : A -> list B)
  (xs : list A) :
  (forall x, sel x = false -> f x = []) ->
  flat_map f xs = flat_map f (filter sel xs).
Proof.
  intros Hf. induction xs as [|x xs IH]; simpl; [reflexivity|].
  destruct (sel x) eqn:E; simpl.
  - rewrite IH. reflexivity.
  - rewrite (Hf x E). exact IH.
Qed.

Lemma subsequence_only_if {A : Type} (c : bool) (x : A) (xs ys : list A) :
  subsequence xs ys -> subsequence (only_if c x ++ xs) (x :: ys).
Proof. intros H. destruct c; simpl; constructor; exact H. Qed.

Lemma line_issues_on_line (p : string) (i : Z) (l : string) :
  Forall (fun x => line x = i) (line_issues p (i, l)).
Proof.
  rewrite line_issues_shape. unfold only_if.
  repeat match goal with
         | |- context [if ?c then [_] else []] => destruct c
         end; simpl; repeat constructor.
Qed.

Lemma lexical_lines_sorted (p : string) (lines : list string) :
  forall start,
    StronglySorted Z.le
      (map line (flat_map (line_issues p) (enumerate lines start)))
    /\ Forall (fun k => start <= k)
         (map line (flat_map (line_issues p) (enumerate lines start))).
Proof.
  induction lines as [|l lines IH]; intros start; simpl.
  - split; constructor.
  - destruct (IH (start + 1)) as [Hs Hge].
    pose proof (line_issues_on_line p start l) as Hblock.
    rewrite map_app.
    induction Hblock as [|x xs Hx Hblock IHb]; simpl.
    + split; [exact Hs|]. eapply Forall_impl; [|exact Hge].
      simpl. intros; lia.
    + destruct IHb as [IHs IHge]. split.
      * constructor; [exact IHs|]. eapply Forall_impl; [|exact IHge].
        simpl. intros; lia.
      * constructor; [lia|exact IHge].
Qed.

(** C10: the issues of a parsed file are the function issues, then the
    class issues, then the lexical issues.  The function issues come
    function by function in the order LONG_FUNCTION, MISSING_DOCSTRING,
    TOO_MANY_PARAMETERS, HIGH_COMPLEXITY; the lexical issues come line by
    line, by increasing line number, in the order LINE_TOO_LONG,
    PENDING_TASK, BARE_EXCEPT, PRINT_STATEMENT within a line. *)
Theorem issues_in_discovery_order (p content : string) (tree : node) :
  read_text p = Return content ->
  ast_parse content = Return tree ->
  exists r,
    analyze p = Return r
    /\ issues r
       = flat_map (function_issues p) (filter is_FunctionDef (walk tree))
         ++ flat_map (class_issues p) (filter is_ClassDef (walk tree))
         ++ flat_map (line_issues p) (enumerate (split_lines content) 1)
    /\ (forall n,
          subsequence (map issue_type (function_issues p n))
            ["LONG_FUNCTION"; "MISSING_DOCSTRING"; "TOO_MANY_PARAMETERS";
             "HIGH_COMPLEXITY"])
    /\ (forall n,
          subsequence (map issue_type (class_issues p n))
            ["MISSING_DOCSTRING"; "LARGE_CLASS"])
    /\ (forall i l,
          subsequence (map issue_type (line_issues p (i, l)))
            ["LINE_TOO_LONG"; "PENDING_TASK"; "BARE_EXCEPT";
             "PRINT_STATEMENT"]
          /\ Forall (fun x => line x = i) (line_issues p (i, l)))
    /\ StronglySorted Z.le
         (map line
            (flat_map (line_issues p) (enumerate (split_lines content) 1))).
Proof.
  intros Hread Hparse.
  destruct (analyze_parsed p content tree Hread Hparse) as [r [Hr Hi]].
  exists r. split; [exact Hr|]. split; [|split; [|split; [|split]]].
  - rewrite Hi. f_equal; [|f_equal].
    + apply flat_map_selected, function_issues_other.
    + apply flat_map_selected, class_issues_other.
  - intros n. destruct n; try (simpl; apply subsequence_nil).
    rewrite function_issues_shape, !map_app.
    unfold only_if.
    repeat match goal with
           | |- context [if ?c then [_] else []] => destruct c
           end; simpl; repeat constructor.
  - intros n. destruct n; try (simpl; apply subsequence_nil).
    rewrite class_issues_shape, !map_app.
    unfold only_if.
    repeat match goal with
           | |- context [if ?c then [_] else []] => destruct c
           end; simpl; repeat constructor.
  - intros i l. split; [|apply line_issues_on_line].
    rewrite line_issues_shape, !map_app.
    unfold only_if.
    repeat match goal with
           | |- context [if ?c then [_] else []] => destruct c
           end; simpl; repeat constructor.
  - apply lexical_lines_sorted.
Qed.

(** ** Messages of the declaration rules *)

Lemma prefix_append (s t : string) : String.prefix s (s ++ t)%string = true.
Proof.
  induction s as [|c s IH]; simpl; [destruct t; reflexivity|].
  destruct (ascii_dec c c); [exact IH|congruence].
Qed.










(** ** The directory walk *)

Lemma analyze_returns (f content : string) :
  read_text f = Return content ->
  (forall cls, ast_parse content <> Raise (Exception cls)) ->
  exists r, analyze f = Return r.
Proof.
  intros Hread Hexn. unfold analyze. rewrite Hread. simpl.
  destruct (ast_parse content) as [tree|[msg lineno|cls]] eqn:Hparse; simpl.
  - eexists. reflexivity.
  - eexists. reflexivity.
  - exfalso. apply (Hexn cls). reflexivity.
Qed.

Lemma walk_step_eligible (results : list AnalysisResult) (f : string)
  (r : AnalysisResult) :
  eligible f = true -> analyze f = Return r ->
  walk_step results f = Return (results ++ [r]).
Proof.
  unfold eligible, walk_step, analyze_file. intros He Hr.
  apply andb_true_iff in He. destruct He as [He Hs].
  apply andb_true_iff in He. destruct He as [Hk Hx].
  apply negb_true_iff in Hk. rewrite Hk, Hx. simpl.
  rewrite Hs, Hr. reflexivity.
Qed.

Lemma walk_step_not_eligible (results : list AnalysisResult) (f : string) :
  eligible f = false -> walk_step results f = Return results.
Proof.
  unfold eligible, walk_step, analyze_file. intros He.
  destruct (skipped f); [reflexivity|].
  destruct (path_exists f); [|reflexivity]. simpl in *.
  rewrite He. reflexivity.
Qed.

Lemma walk_files (files : list string) :
  (forall f, In f files -> eligible f = true ->
             exists r, analyze f = Return r) ->
  forall results,
  exists rs,
    for_each files walk_step results = Return (results ++ rs)
    /\ Forall2 (fun f r => analyze f = Return r) (filter eligible files) rs.
Proof.
  induction files as [|f files IH]; intros Hall results.
  - exists []. simpl. rewrite app_nil_r. split; constructor.
  - assert (Hrest : forall g, In g files -> eligible g = true ->
                               exists r, analyze g = Return r).
    { intros g Hg. apply Hall. right. exact Hg. }
    simpl. destruct (eligible f) eqn:He.
    + destruct (Hall f (or_introl eq_refl) He) as [r Hr].
      rewrite (walk_step_eligible results f r He Hr). simpl.
      destruct (IH Hrest (results ++ [r])) as [rs [Hrun Hrs]].
      exists (r :: rs). split.
      * rewrite Hrun, <- app_assoc. reflexivity.
      * constructor; assumption.
    + rewrite (walk_step_not_eligible results f He). simpl.
      apply IH, Hrest.
Qed.

(** C6, as the code has it: in a directory walk a file that does not parse
    costs the other files nothing.  When every file that reaches the
    analyzer can be read and parsing raises nothing but [SyntaxError],
    [analyze_path] returns one result for each of those files, in the order
    of the walk. *)
Theorem syntax_errors_do_not_stop_the_walk (path : string) :
  is_file path = false ->
  is_dir path = true ->
  (forall f,
     In f (rglob path "*.py") -> eligible f = true ->
     exists content,
       read_text f = Return content
       /\ forall cls, ast_parse content <> Raise (Exception cls)) ->
  exists results,
    analyze_path path = Return results
    /\ Forall2 (fun f r => analyze f = Return r)
         (filter eligible (rglob path "*.py")) results.
Proof.
  intros Hfile Hdir Hall.
  unfold analyze_path. rewrite Hfile, Hdir. simpl.
  destruct (walk_files (rglob path "*.py")) with (results := @nil AnalysisResult)
    as [rs [Hrun Hrs]].
  { intros f Hf He. destruct (Hall f Hf He) as [content [Hread Hexn]].
    eapply analyze_returns; eassumption. }
  exists rs. split; [|exact Hrs].
  change (for_each (rglob path "*.py") walk_step [] = Return ([] ++ rs))
    in Hrun.
  unfold walk_step in Hrun. rewrite Hrun. reflexivity.
Qed.

(** * Further properties of the analyzer *)

(** ** Metrics *)

Lemma split_lines_nonempty (s : string) : split_lines s <> [].
Proof.
  destruct s as [|c s]; simpl; [discriminate|].
  destruct (Ascii.eqb c "010"); [discriminate|].
  destruct (split_lines s); discriminate.
Qed.

Lemma split_lines_length (s : string) :
  Z.of_nat (List.length (split_lines s)) = 1 + count_newlines s.
Proof.
  induction s as [|c s IH]; cbn [split_lines count_newlines];
    [reflexivity|].
  destruct (Ascii.eqb c "010").
  - cbn [List.length]. rewrite Nat2Z.inj_succ, IH. lia.
  - pose proof (split_lines_nonempty s) as Hne.
    destruct (split_lines s) as [|l ls]; [congruence|].
    change (List.length (String c l :: ls)) with (List.length (l :: ls)).
    rewrite IH. lia.
Qed.

Lemma lstrip_empty (s : string) :
  lstrip s = EmptyString <-> all_space s = true.
Proof.
  induction s as [|c s IH]; simpl; [tauto|].
  destruct (isspace c); simpl; [exact IH|].
  split; discriminate.
Qed.

Lemma rstrip_empty (s : string) :
  rstrip s = EmptyString <-> all_space s = true.
Proof.
  induction s as [|c s IH]; simpl; [tauto|].
  destruct (rstrip s) eqn:Hr.
  - destruct (isspace c); simpl.
    + split; intros _; [apply IH|]; reflexivity.
    + split; discriminate.
  - split; [discriminate|]. intros H.
    apply andb_true_iff in H. destruct H as [_ H].
    apply IH in H. discriminate.
Qed.

Lemma all_space_lstrip (s : string) :
  all_space (lstrip s) = all_space s.
Proof.
  induction s as [|c s IH]; simpl; [reflexivity|].
  destruct (isspace c) eqn:E; simpl; [exact IH|].
  rewrite E. reflexivity.
Qed.

Lemma strip_blank (l : string) :
  negb (0 <? len (strip l)) = all_space l.
Proof.
  unfold strip, len. rewrite <- all_space_lstrip.
  destruct (rstrip (lstrip l)) eqn:Hr.
  - simpl. symmetry. apply rstrip_empty. exact Hr.
  - simpl String.length. rewrite Nat2Z.inj_succ.
    destruct (Z.ltb_spec 0 (Z.succ (Z.of_nat (String.length s)))); [|lia].
    simpl. destruct (all_space (lstrip l)) eqn:E; [|reflexivity].
    apply rstrip_empty in E. congruence.
Qed.

Lemma prefix_empty (s : string) : String.prefix EmptyString s = true.
Proof. destruct s; reflexivity. Qed.

Lemma lstrip_head (s : string) (c : ascii) (r : string) :
  lstrip s = String c r -> isspace c = false.
Proof.
  induction s as [|d s IH]; simpl; [discriminate|].
  destruct (isspace d) eqn:E; [exact IH|].
  intros H. injection H as <- _. exact E.
Qed.

Lemma rstrip_head (c : ascii) (r : string) :
  isspace c = false -> exists r', rstrip (String c r) = String c r'.
Proof.
  intros H. simpl. destruct (rstrip r); rewrite ?H; eauto.
Qed.

Lemma prefix_one (a c : ascii) (r : string) :
  String.prefix (String a EmptyString) (String c r) = Ascii.eqb a c.
Proof.
  cbn [String.prefix]. destruct (ascii_dec a c) as [->|Hne].
  - rewrite prefix_empty, Ascii.eqb_refl. reflexivity.
  - symmetry. apply Ascii.eqb_neq. exact Hne.
Qed.

Lemma strip_comment (l : string) :
  startswith (strip l) "#" = String.prefix "#" (lstrip l).
Proof.
  unfold startswith, strip.
  destruct (lstrip l) as [|c r] eqn:Hl; [reflexivity|].
  destruct (rstrip_head c r (lstrip_head l c r Hl)) as [r' ->].
  rewrite !prefix_one. reflexivity.
Qed.

Lemma count_if_ext {A : Type} (f g : A -> bool) (xs : list A) :
  (forall x, f x = g x) -> count_if f xs = count_if g xs.
Proof.
  intros H. unfold count_if. f_equal. f_equal.
  apply filter_ext. exact H.
Qed.

Lemma count_if_disjoint {A : Type} (f g : A -> bool) (xs : list A) :
  (forall x, f x = true -> g x = false) ->
  0 <= count_if f xs
  /\ 0 <= count_if g xs
  /\ count_if f xs + count_if g xs <= Z.of_nat (List.length xs).
Proof.
  intros H. unfold count_if.
  induction xs as [|x xs IH]; simpl; [lia|].
  specialize (H x).
  destruct (f x); [rewrite H by reflexivity|destruct (g x)];
    simpl List.length; lia.
Qed.

Lemma line_rules_metrics (p : string) (r : AnalysisResult)
  (x : Z * string) :
  metrics (line_rules p r x) = metrics r.
Proof. destruct x. simpl. rewrite !append_if_metrics. reflexivity. Qed.

Lemma loop_keeps {A B : Type} (proj : AnalysisResult -> B)
  (body : AnalysisResult -> A -> AnalysisResult) :
  (forall r x, proj (body r x) = proj r) ->
  forall xs r, proj (fold_left body xs r) = proj r.
Proof.
  intros Hbody. induction xs as [|x xs IH]; intros r; simpl.
  - reflexivity.
  - rewrite IH. apply Hbody.
Qed.

(** X1: for a file that parses, the metrics are [total_lines], one more
    than the number of newline characters, [blank_lines], the lines of
    white space only, and [comment_lines], the lines whose first character
    after the indentation is [#]; no line is counted as both, so the two
    counts together never exceed [total_lines], which is at least 1. *)
Theorem metrics_of_parsed_file (p content : string) (tree : node) :
  read_text p = Return content ->
  ast_parse content = Return tree ->
  exists r total blank comment,
    analyze p = Return r
    /\ metrics r
       = [("total_lines", total); ("blank_lines", blank);
          ("comment_lines", comment)]
    /\ total = 1 + count_newlines content
    /\ blank = count_if all_space (split_lines content)
    /\ comment
       = count_if (fun l => String.prefix "#" (lstrip l))
           (split_lines content)
    /\ 1 <= total /\ 0 <= blank /\ 0 <= comment
    /\ blank + comment <= total.
Proof.
  intros Hread Hparse.
  exists (returned_result (analyze p)),
    (1 + count_newlines content),
    (count_if all_space (split_lines content)),
    (count_if (fun l => String.prefix "#" (lstrip l)) (split_lines content)).
  assert (Hrun : analyze p = Return (returned_result (analyze p))).
  { unfold analyze. rewrite Hread. simpl. rewrite Hparse. reflexivity. }
  split; [exact Hrun|].
  split.
  { unfold analyze. rewrite Hread. simpl. rewrite Hparse. simpl.
    unfold _check_common_issues, _analyze_classes, _analyze_functions.
    rewrite (loop_keeps metrics _ (line_rules_metrics p)).
    rewrite (loop_keeps metrics _ (class_rules_metrics p)).
    rewrite (loop_keeps metrics _ (function_rules_metrics p)).
    simpl. rewrite split_lines_length.
    rewrite (count_if_ext _ all_space) by apply strip_blank.
    rewrite (count_if_ext (fun line => startswith (strip line) "#")
               (fun l => String.prefix "#" (lstrip l)))
      by apply strip_comment.
    reflexivity. }
  repeat split; try reflexivity.
  - pose proof (split_lines_length content).
    pose proof (split_lines_nonempty content).
    destruct (split_lines content); [congruence|]. simpl in *. lia.
  - unfold count_if. lia.
  - unfold count_if. lia.
  - rewrite <- split_lines_length. apply count_if_disjoint.
    intros l Hl. apply lstrip_empty in Hl. rewrite Hl. reflexivity.
Qed.

(** ** Where an issue comes from *)

Lemma function_rules_path (p : string) (r : AnalysisResult) (n : node) :
  file_path (function_rules p r n) = file_path r.
Proof.
  destruct n; simpl; try reflexivity.
  unfold append_if.
  repeat match goal with
         | |- context [if ?c then _ else _] => destruct c
         end; reflexivity.
Qed.

Lemma class_rules_path (p : string) (r : AnalysisResult) (n : node) :
  file_path (class_rules p r n) = file_path r.
Proof.
  destruct n; simpl; try reflexivity.
  unfold append_if.
  repeat match goal with
         | |- context [if ?c then _ else _] => destruct c
         end; reflexivity.
Qed.

Lemma line_rules_path (p : string) (r : AnalysisResult) (x : Z * string) :
  file_path (line_rules p r x) = file_path r.
Proof.
  destruct x. simpl. unfold append_if.
  repeat match goal with
         | |- context [if ?c then _ else _] => destruct c
         end; reflexivity.
Qed.

Lemma function_issues_file (p : string) (n : node) (i : CodeIssue) :
  In i (function_issues p n) -> file i = p /\ is_FunctionDef n = true.
Proof.
  destruct n; try (simpl; contradiction).
  rewrite function_issues_shape. intros H.
  split_issue H; split; reflexivity.
Qed.

Lemma class_issues_file (p : string) (n : node) (i : CodeIssue) :
  In i (class_issues p n) -> file i = p /\ is_ClassDef n = true.
Proof.
  destruct n; try (simpl; contradiction).
  rewrite class_issues_shape. intros H.
  split_issue H; split; reflexivity.
Qed.

Lemma line_issues_file (p : string) (x : Z * string) (i : CodeIssue) :
  In i (line_issues p x) ->
  file i = p /\ line i = fst x /\ In (issue_type i) lexical_kinds.
Proof.
  destruct x as [k l]. rewrite line_issues_shape. intros H.
  split_issue H; repeat split; simpl; auto.
Qed.

Lemma analyze_cases (p : string) (r : AnalysisResult) :
  analyze p = Return r ->
  (exists content tree,
      read_text p = Return content /\ ast_parse content = Return tree)
  \/ (exists msg lineno,
         r = mkAnalysisResult p
               [mkCodeIssue p (or_zero lineno) "SYNTAX_ERROR" "HIGH"
                  ("Syntax error: " ++ msg)%string
                  "Fix the syntax error before proceeding"]
               []).
Proof.
  unfold analyze.
  destruct (read_text p) as [content|[msg lineno|cls]] eqn:Hread; simpl.
  - destruct (ast_parse content) as [tree|[msg lineno|cls]] eqn:Hparse;
      simpl.
    + intros _. left. exists content, tree. split; [reflexivity|exact Hparse].
    + intros H. injection H as <-. right. exists msg, lineno. reflexivity.
    + discriminate.
  - intros H. injection H as <-. right. exists msg, lineno. reflexivity.
  - discriminate.
Qed.

(** X2: whatever [analyze] returns is labelled with the path it was given:
    the result carries that path, and so does every issue in it. *)
Theorem result_labelled_with_path (p : string) (r : AnalysisResult) :
  analyze p = Return r ->
  file_path r = p /\ Forall (fun i => file i = p) (issues r).
Proof.
  intros Hrun. destruct (analyze_cases p r Hrun)
    as [[content [tree [Hread Hparse]]]|[msg [lineno ->]]].
  - split.
    + unfold analyze in Hrun. rewrite Hread in Hrun. simpl in Hrun.
      rewrite Hparse in Hrun. simpl in Hrun. injection Hrun as <-.
      unfold _check_common_issues, _analyze_classes, _analyze_functions.
      rewrite (loop_keeps file_path _ (line_rules_path p)).
      rewrite (loop_keeps file_path _ (class_rules_path p)).
      rewrite (loop_keeps file_path _ (function_rules_path p)).
      reflexivity.
    + destruct (analyze_parsed p content tree Hread Hparse) as [r' [Hr' Hi]].
      rewrite Hrun in Hr'. injection Hr' as <-.
      apply Forall_forall. intros i Hin. rewrite Hi in Hin.
      apply in_app_or in Hin. destruct Hin as [Hin|Hin];
        [|apply in_app_or in Hin; destruct Hin as [Hin|Hin]];
        apply in_flat_map in Hin; destruct Hin as [x [_ Hx]].
      * apply (function_issues_file p x i Hx).
      * apply (class_issues_file p x i Hx).
      * apply (line_issues_file p x i Hx).
  - split; [reflexivity|]. repeat constructor.
Qed.

Lemma enumerate_In {A : Type} (xs : list A) :
  forall start k x,
    In (k, x) (enumerate xs start) ->
    start <= k < start + Z.of_nat (List.length xs)
    /\ nth_error xs (Z.to_nat (k - start)) = Some x.
Proof.
  induction xs as [|y xs IH]; intros start k x Hin; simpl in Hin;
    [contradiction|].
  cbn [List.length]. rewrite Nat2Z.inj_succ.
  destruct Hin as [Heq|Hin].
  - injection Heq as <- <-. split; [lia|].
    rewrite Z.sub_diag. reflexivity.
  - destruct (IH _ _ _ Hin) as [Hb Hn]. split; [lia|].
    replace (k - start) with (Z.succ (k - (start + 1))) by lia.
    rewrite Z2Nat.inj_succ by lia. exact Hn.
Qed.

Lemma not_lexical_function (p : string) (n : node) (i : CodeIssue) :
  In i (function_issues p n) -> ~ In (issue_type i) lexical_kinds.
Proof.
  destruct n; try (simpl; contradiction).
  rewrite function_issues_shape. intros H.
  split_issue H; simpl; intros Hk;
    repeat (destruct Hk as [Hk|Hk]; [discriminate|]); contradiction.
Qed.

Lemma not_lexical_class (p : string) (n : node) (i : CodeIssue) :
  In i (class_issues p n) -> ~ In (issue_type i) lexical_kinds.
Proof.
  destruct n; try (simpl; contradiction).
  rewrite class_issues_shape. intros H.
  split_issue H; simpl; intros Hk;
    repeat (destruct Hk as [Hk|Hk]; [discriminate|]); contradiction.
Qed.

(** X3: in the result of a parsed file, an issue of a line rule sits on a
    line of the file: its line number is between 1 and [total_lines], and
    the issue is one the rules give for the text of that very line. *)
Theorem lexical_issue_on_its_line (p content : string) (tree : node) :
  read_text p = Return content ->
  ast_parse content = Return tree ->
  exists r,
    analyze p = Return r
    /\ forall i,
         In i (issues r) ->
         In (issue_type i) lexical_kinds ->
         1 <= line i <= Z.of_nat (List.length (split_lines content))
         /\ exists l,
              nth_error (split_lines content) (Z.to_nat (line i - 1))
              = Some l
              /\ In i (line_issues p (line i, l)).
Proof.
  intros Hread Hparse.
  destruct (analyze_parsed p content tree Hread Hparse) as [r [Hr Hi]].
  exists r. split; [exact Hr|]. intros i Hin Hkind. rewrite Hi in Hin.
  apply in_app_or in Hin. destruct Hin as [Hin|Hin];
    [|apply in_app_or in Hin; destruct Hin as [Hin|Hin]];
    apply in_flat_map in Hin; destruct Hin as [x [Hx Hix]].
  - exfalso. exact (not_lexical_function p x i Hix Hkind).
  - exfalso. exact (not_lexical_class p x i Hix Hkind).
  - destruct x as [k l].
    destruct (line_issues_file p (k, l) i Hix) as [_ [Hline _]].
    simpl in Hline. subst k.
    destruct (enumerate_In _ _ _ _ Hx) as [Hb Hn].
    split; [lia|]. exists l. split; assumption.
Qed.

(** ** Each rule fires at most once *)

Lemma count_kind_app (kind : string) (l1 l2 : list CodeIssue) :
  count_kind kind (l1 ++ l2) = (count_kind kind l1 + count_kind kind l2)%nat.
Proof. unfold count_kind. rewrite filter_app, length_app. reflexivity. Qed.

(** X4: one pass of a rule loop adds at most one issue of any kind: a
    function gets at most one issue of each kind, whatever the excess, and
    so does a class; a line gets at most one issue per line rule. *)
Theorem each_rule_fires_at_most_once (p kind : string) (n : node)
  (i : Z) (l : string) :
  (count_kind kind (function_issues p n) <= 1)%nat
  /\ (count_kind kind (class_issues p n) <= 1)%nat
  /\ (count_kind kind (line_issues p (i, l)) <= 1)%nat.
Proof.
  repeat split.
  - destruct n; try (unfold count_kind; simpl; lia).
    rewrite function_issues_shape, !count_kind_app.
    unfold only_if, count_kind, has_type.
    repeat match goal with
           | |- context [if ?c then [_] else []] => destruct c
           end; cbn [filter issue_type List.length];
      repeat match goal with
             | |- context [String.eqb ?a ?b] =>
                 destruct (String.eqb_spec a b); subst
             end; cbn [List.length]; try lia; try discriminate.
  - destruct n; try (unfold count_kind; simpl; lia).
    rewrite class_issues_shape, !count_kind_app.
    unfold only_if, count_kind, has_type.
    repeat match goal with
           | |- context [if ?c then [_] else []] => destruct c
           end; cbn [filter issue_type List.length];
      repeat match goal with
             | |- context [String.eqb ?a ?b] =>
                 destruct (String.eqb_spec a b); subst
             end; cbn [List.length]; try lia; try discriminate.
  - rewrite line_issues_shape, !count_kind_app.
    unfold only_if, count_kind, has_type.
    repeat match goal with
           | |- context [if ?c then [_] else []] => destruct c
           end; cbn [filter issue_type List.length];
      repeat match goal with
             | |- context [String.eqb ?a ?b] =>
                 destruct (String.eqb_spec a b); subst
             end; cbn [List.length]; try lia; try discriminate.
Qed.

(** ** Thresholds *)

Lemma existsb_only_if (kind : string) (c : bool) (i : CodeIssue) :
  existsb (has_type kind) (only_if c i) = c && has_type kind i.
Proof. destruct c; simpl; [apply orb_false_r|reflexivity]. Qed.

(** X5: LONG_FUNCTION fires on a function exactly when its last line is
    known (not 0) and the span [end_lineno - lineno + 1] is more than
    [MAX_FUNCTION_LENGTH]: a span of exactly 50 lines is accepted, 51 is
    not, and a function whose end is unknown is never reported. *)
Theorem long_function_boundary (p name : string) (lineno : Z)
  (end_lineno : option Z) (a : arguments_of node) (b d : list node)
  (ret : option node) (t : list node) :
  existsb (has_type "LONG_FUNCTION")
    (function_issues p (FunctionDef name lineno end_lineno a b d ret t))
  = true
  <-> exists e,
        end_lineno = Some e /\ e <> 0
        /\ e - lineno + 1 > MAX_FUNCTION_LENGTH.
Proof.
  rewrite function_issues_shape, !existsb_app, !existsb_only_if.
  unfold has_type. cbn [issue_type String.eqb Ascii.eqb Bool.eqb].
  rewrite !andb_false_r, !orb_false_r, andb_true_r.
  unfold line_span. destruct end_lineno as [e|].
  - destruct (Z.eqb_spec e 0) as [->|Hne].
    + split; [discriminate|]. intros [e [He [Hne _]]].
      injection He as <-. congruence.
    + split.
      * intros H. apply Z.gtb_gt in H. exists e. auto.
      * intros [e' [He [_ H]]]. injection He as <-.
        apply Z.gtb_gt. exact H.
  - split; [discriminate|]. intros [e [He _]]. discriminate.
Qed.

(** X6: HIGH_COMPLEXITY fires on a function exactly when its subtree holds
    ten decision points or more, a boolean combination of [k] operands
    counting for [k - 1]. *)
Theorem high_complexity_threshold (p name : string) (lineno : Z)
  (end_lineno : option Z) (a : arguments_of node) (b d : list node)
  (ret : option node) (t : list node) :
  let f := FunctionDef name lineno end_lineno a b d ret t in
  existsb (has_type "HIGH_COMPLEXITY") (function_issues p f) = true
  <-> 10 <= count_if is_decision (subtree f)
            + sumZ (map boolop_extra (subtree f)).
Proof.
  intros f. unfold f.
  rewrite function_issues_shape, !existsb_app, !existsb_only_if.
  unfold has_type. cbn [issue_type String.eqb Ascii.eqb Bool.eqb].
  rewrite !andb_false_r, andb_true_r. cbn [orb].
  rewrite complexity_weight, sum_decisions, Z.gtb_gt.
  unfold MAX_COMPLEXITY. lia.
Qed.

(** X7: LARGE_CLASS fires on a class exactly when more than 20 of the
    statements directly in its body are function definitions; what lies
    deeper (methods of nested classes, functions inside methods) and the
    other statements of the body are not counted. *)
Theorem large_class_counts_direct_methods (p name : string) (lineno : Z)
  (ba kw body d t : list node) :
  existsb (has_type "LARGE_CLASS")
    (class_issues p (ClassDef name lineno ba kw body d t))
  = (Z.of_nat (List.length (filter is_FunctionDef body)) >? 20).
Proof.
  rewrite class_issues_shape, !existsb_app, !existsb_only_if.
  unfold has_type. cbn [issue_type String.eqb Ascii.eqb Bool.eqb].
  rewrite andb_false_r, andb_true_r. reflexivity.
Qed.

(** ** Exceptions *)

(** X8: [analyze] never raises a [SyntaxError]; it raises exactly the
    exceptions of another class that reading the file or parsing its
    content raises, unchanged. *)
Theorem analyze_raises (p : string) (e : exn) :
  analyze p = Raise e
  <-> is_SyntaxError e = false
      /\ (read_text p = Raise e
          \/ exists content,
               read_text p = Return content
               /\ ast_parse content = Raise e).
Proof.
  unfold analyze.
  destruct (read_text p) as [content|[msg lineno|cls]] eqn:Hread; simpl.
  - destruct (ast_parse content) as [tree|[msg lineno|cls]] eqn:Hparse;
      simpl.
    + split; [discriminate|].
      intros [_ [H|[c [Hc H]]]]; [discriminate|].
      injection Hc as <-. congruence.
    + split; [discriminate|].
      intros [Hs [H|[c [Hc H]]]]; [discriminate|].
      injection Hc as <-. rewrite Hparse in H. injection H as <-.
      discriminate.
    + split.
      * intros H. injection H as <-. split; [reflexivity|].
        right. exists content. split; [reflexivity|exact Hparse].
      * intros [_ [H|[c [Hc H]]]]; [discriminate|].
        injection Hc as <-. congruence.
  - split; [discriminate|].
    intros [Hs [H|[c [Hc _]]]]; [|discriminate].
    injection H as <-. discriminate.
  - split.
    + intros H. injection H as <-. split; [reflexivity|]. left. reflexivity.
    + intros [_ [H|[c [Hc _]]]]; [|discriminate]. congruence.
Qed.

(** ** Single files and directories *)

(** X9: a path that is a file is analyzed on its own, without the skip
    markers of the directory walk: when it exists and ends in [.py] the
    outcome is that of [analyze], one result or its exception; otherwise
    the answer is the empty list.  A path that is neither a file nor a
    directory also gives the empty list. *)
Theorem analyze_path_of_file (path : string) :
  (is_file path = true ->
   analyze_path path
   = if path_exists path && String.eqb (suffix path) ".py"
     then r <- analyze path ;; Return [r]
     else Return [])
  /\ (is_file path = false -> is_dir path = false ->
      analyze_path path = Return []).
Proof.
  unfold analyze_path, analyze_file. split.
  - intros ->. destruct (path_exists path); simpl; [|reflexivity].
    destruct (String.eqb (suffix path) ".py"); simpl; [|reflexivity].
    destruct (analyze path); reflexivity.
  - intros -> ->. reflexivity.
Qed.

Lemma walk_files_returned (files : list string) :
  forall acc res,
    for_each files walk_step acc = Return res ->
    exists rs,
      res = acc ++ rs
      /\ Forall2 (fun f r => analyze f = Return r) (filter eligible files) rs.
Proof.
  induction files as [|f files IH]; intros acc res Hrun; simpl in Hrun.
  - injection Hrun as <-. exists []. rewrite app_nil_r.
    split; constructor.
  - destruct (eligible f) eqn:He.
    + destruct (analyze f) as [r|e] eqn:Hr.
      * rewrite (walk_step_eligible acc f r He Hr) in Hrun. simpl in Hrun.
        destruct (IH _ _ Hrun) as [rs [-> Hrs]].
        exists (r :: rs). rewrite <- app_assoc. split; [reflexivity|].
        simpl. rewrite He. constructor; assumption.
      * exfalso. revert Hrun.
        unfold eligible in He.
        apply andb_true_iff in He. destruct He as [He Hs].
        apply andb_true_iff in He. destruct He as [Hk Hx].
        apply negb_true_iff in Hk.
        unfold walk_step, analyze_file. rewrite Hk, Hx. simpl.
        rewrite Hs, Hr. simpl. discriminate.
    + rewrite (walk_step_not_eligible acc f He) in Hrun. simpl in Hrun.
      destruct (IH _ _ Hrun) as [rs [-> Hrs]].
      exists rs. split; [reflexivity|]. simpl. rewrite He. exact Hrs.
Qed.

Lemma analyze_path_label (f : string) (r : AnalysisResult) :
  analyze f = Return r -> file_path r = f.
Proof.
  intros Hrun. destruct (analyze_cases f r Hrun)
    as [[content [tree [Hread Hparse]]]|[msg [lineno ->]]];
    [|reflexivity].
  unfold analyze in Hrun. rewrite Hread in Hrun. simpl in Hrun.
  rewrite Hparse in Hrun. simpl in Hrun. injection Hrun as <-.
  unfold _check_common_issues, _analyze_classes, _analyze_functions.
  rewrite (loop_keeps file_path _ (line_rules_path f)).
  rewrite (loop_keeps file_path _ (class_rules_path f)).
  rewrite (loop_keeps file_path _ (function_rules_path f)).
  reflexivity.
Qed.

Lemma analyzed_labels (fs : list string) (rs : list AnalysisResult) :
  Forall2 (fun f r => analyze f = Return r) fs rs ->
  map file_path rs = fs.
Proof.
  induction 1 as [|f r fs rs Hfr Hrs IH]; simpl; [reflexivity|].
  rewrite (analyze_path_label f r Hfr), IH. reflexivity.
Qed.

(** X10: when the walk of a directory returns, its results are those of
    the files found under it that exist, end in [.py] and hold none of the
    markers [venv], [__pycache__], [.git], [node_modules] in their path:
    one result each, in the order found, and none for any other file. *)
Theorem directory_walk_results (path : string)
  (results : list AnalysisResult) :
  is_file path = false ->
  is_dir path = true ->
  analyze_path path = Return results ->
  map file_path results = filter eligible (rglob path "*.py")
  /\ Forall (fun r => skipped (file_path r) = false) results.
Proof.
  intros Hfile Hdir Hrun.
  unfold analyze_path in Hrun. rewrite Hfile, Hdir in Hrun.
  simpl in Hrun.
  change (x <- for_each (rglob path "*.py") walk_step [] ;; Return x
          = Return results) in Hrun.
  destruct (for_each (rglob path "*.py") walk_step []) as [res|e] eqn:Hloop;
    [|discriminate].
  simpl in Hrun. injection Hrun as <-.
  destruct (walk_files_returned _ _ _ Hloop) as [rs [-> Hrs]]. simpl.
  pose proof (analyzed_labels _ _ Hrs) as Hmap.
  split; [exact Hmap|].
  apply Forall_forall. intros r Hr.
  assert (Hin : In (file_path r) (filter eligible (rglob path "*.py"))).
  { rewrite <- Hmap. apply in_map. exact Hr. }
  apply filter_In in Hin. destruct Hin as [_ He].
  unfold eligible in He.
  apply andb_true_iff in He. destruct He as [He _].
  apply andb_true_iff in He. destruct He as [Hk _].
  apply negb_true_iff in Hk. exact Hk.
Qed.

(** ** Order of the traversal *)

Lemma walk_queue_level (q : list node) :
  forall k acc,
    walk_queue (List.length q + k) (q ++ acc)
    = q ++ walk_queue k (acc ++ flat_map iter_child_nodes q).
Proof.
  induction q as [|n q IH]; intros k acc; simpl.
  - rewrite app_nil_r. reflexivity.
  - f_equal. rewrite <- app_assoc, IH, <- app_assoc. reflexivity.
Qed.

Lemma forest_size_children (q : list node) :
  List.length (flat_map subtree q)
  = (List.length q
     + List.length (flat_map subtree (flat_map iter_child_nodes q)))%nat.
Proof.
  induction q as [|n q IH]; simpl; [reflexivity|].
  rewrite subtree_unfold. simpl.
  rewrite flat_map_app, !length_app, IH. lia.
Qed.

Lemma level_order_nil (d : nat) : level_order d [] = [].
Proof. induction d as [|d IH]; simpl; [reflexivity|exact IH]. Qed.

Lemma walk_queue_levels (d : nat) :
  forall q,
    (List.length (flat_map subtree q) <= d)%nat ->
    walk_queue (List.length (flat_map subtree q)) q = level_order d q.
Proof.
  induction d as [|d IH]; intros q Hd.
  - destruct q as [|n q]; [reflexivity|].
    simpl in Hd. rewrite subtree_unfold in Hd. simpl in Hd. lia.
  - destruct q as [|n q]; [simpl; rewrite level_order_nil; reflexivity|].
    rewrite forest_size_children in Hd. rewrite forest_size_children.
    pose proof (walk_queue_level (n :: q)
                  (List.length
                     (flat_map subtree
                        (flat_map iter_child_nodes (n :: q)))) [])
      as Hlevel.
    rewrite app_nil_r in Hlevel. rewrite Hlevel.
    cbn [level_order app]. f_equal. f_equal.
    apply IH. cbn [List.length] in Hd. lia.
Qed.

(** X11: [ast.walk] is breadth-first: it yields the tree level by level,
    the root, then its children, then their children, each level from left
    to right.  The function rules run in that order, so the issues of a
    declaration come before those of the declarations nested in it. *)
Theorem walk_is_level_order (tree : node) (p : string)
  (r : AnalysisResult) :
  walk tree = level_order (size tree) [tree]
  /\ issues (_analyze_functions tree p r)
     = issues r
       ++ flat_map (function_issues p) (level_order (size tree) [tree])
  /\ issues (_analyze_classes tree p r)
     = issues r
       ++ flat_map (class_issues p) (level_order (size tree) [tree]).
Proof.
  assert (Hwalk : walk tree = level_order (size tree) [tree]).
  { unfold walk, size.
    replace (List.length (subtree tree))
      with (List.length (flat_map subtree [tree]))
      by (simpl; rewrite app_nil_r; reflexivity).
    apply walk_queue_levels. lia. }
  split; [exact Hwalk|].
  rewrite _analyze_functions_issues, _analyze_classes_issues, Hwalk.
  split; reflexivity.
Qed.

(** ** The line rules as patterns *)

Lemma string_app_assoc (a b c : string) :
  ((a ++ b) ++ c = a ++ b ++ c)%string.
Proof. induction a as [|x a IH]; simpl; [reflexivity|]. rewrite IH. reflexivity. Qed.

Lemma prefix_iff (p s : string) :
  String.prefix p s = true <-> exists t, s = (p ++ t)%string.
Proof.
  split.
  - revert s. induction p as [|a p IH]; intros s H.
    + exists s. reflexivity.
    + destruct s as [|b s]; [discriminate|]. cbn [String.prefix] in H.
      destruct (ascii_dec a b) as [->|]; [|discriminate].
      destruct (IH s H) as [t ->]. exists t. reflexivity.
  - intros [t ->]. apply prefix_append.
Qed.

Lemma search_iff (m : string -> bool) (l : string) :
  search m l = true <-> exists a b, l = (a ++ b)%string /\ m b = true.
Proof.
  split.
  - induction l as [|c l IH]; simpl.
    + rewrite orb_false_r. intros H. exists EmptyString, EmptyString. auto.
    + intros H. apply orb_true_iff in H. destruct H as [H|H].
      * exists EmptyString, (String c l). auto.
      * destruct (IH H) as [a [b [-> Hb]]]. exists (String c a), b. auto.
  - intros [a [b [-> Hb]]]. induction a as [|c a IH]; simpl.
    + destruct b; simpl; rewrite Hb; reflexivity.
    + rewrite IH. apply orb_true_r.
Qed.

Lemma contains_search (needle hay : string) :
  contains needle hay = search (String.prefix needle) hay.
Proof.
  induction hay as [|c hay IH]; simpl; [reflexivity|].
  rewrite IH. reflexivity.
Qed.

Lemma contains_iff (needle hay : string) :
  contains needle hay = true
  <-> exists a b, hay = (a ++ needle ++ b)%string.
Proof.
  rewrite contains_search, search_iff. split.
  - intros [a [b [-> Hb]]]. apply prefix_iff in Hb. destruct Hb as [t ->].
    exists a, t. reflexivity.
  - intros [a [b ->]]. exists a, (needle ++ b)%string.
    split; [reflexivity|apply prefix_append].
Qed.

Lemma lstrip_split (s : string) :
  exists ws, s = (ws ++ lstrip s)%string /\ all_space ws = true.
Proof.
  induction s as [|c s IH]; simpl.
  - exists EmptyString. auto.
  - destruct (isspace c) eqn:E.
    + destruct IH as [ws [Hs Hws]]. exists (String c ws). simpl.
      rewrite E, Hws, <- Hs. auto.
    + exists EmptyString. auto.
Qed.

Lemma lstrip_app (ws r : string) :
  all_space ws = true -> lstrip (ws ++ r) = lstrip r.
Proof.
  induction ws as [|c ws IH]; simpl; [reflexivity|].
  intros H. apply andb_true_iff in H. destruct H as [Hc Hws].
  rewrite Hc. apply IH, Hws.
Qed.

Lemma substring_all (t : string) : String.substring 0 (String.length t) t = t.
Proof. induction t as [|c t IH]; simpl; [reflexivity|]. rewrite IH. reflexivity. Qed.

Lemma substring_after (p t : string) :
  String.substring (String.length p)
    (String.length (p ++ t) - String.length p) (p ++ t)
  = t.
Proof.
  induction p as [|c p IH]; simpl.
  - rewrite Nat.sub_0_r. apply substring_all.
  - exact IH.
Qed.

(** A literal, white space, a literal: the shape of the three patterns. *)
Lemma literal_space_literal (lit1 lit2 s : string) :
  isspace_head lit2 = false ->
  String.prefix lit1 s
  && String.prefix lit2
       (lstrip (String.substring (String.length lit1)
                  (String.length s - String.length lit1) s))
  = true
  <-> exists ws b,
        s = (lit1 ++ ws ++ lit2 ++ b)%string /\ all_space ws = true.
Proof.
  intros Hlit. split.
  - intros H. apply andb_true_iff in H. destruct H as [H1 H2].
    apply prefix_iff in H1. destruct H1 as [t ->].
    rewrite substring_after in H2.
    apply prefix_iff in H2. destruct H2 as [b Hb].
    destruct (lstrip_split t) as [ws [Ht Hws]].
    exists ws, b. rewrite <- Hb, <- Ht. auto.
  - intros [ws [b [-> Hws]]].
    rewrite prefix_append, substring_after, lstrip_app by exact Hws.
    simpl. destruct lit2 as [|c lit2]; simpl.
    + apply prefix_empty.
    + simpl in Hlit. rewrite Hlit. apply (prefix_append (String c lit2)).
Qed.

Lemma existsb_line_rule (p kind : string) (i : Z) (l : string) :
  existsb (has_type kind) (line_issues p (i, l))
  = (len l >? 120) && String.eqb "LINE_TOO_LONG" kind
    || search pending_here l && String.eqb "PENDING_TASK" kind
    || search bare_except_here l && String.eqb "BARE_EXCEPT" kind
    || (print_call_at_start l && negb (contains "# noqa" l))
       && String.eqb "PRINT_STATEMENT" kind.
Proof.
  rewrite line_issues_shape, !existsb_app, !existsb_only_if.
  unfold has_type. cbn [issue_type]. rewrite !orb_assoc. reflexivity.
Qed.

(** X12: BARE_EXCEPT fires on a line exactly when the line holds the word
    [except], white space or nothing, and a colon, anywhere in it (inside
    a string or a comment as well). *)
Theorem bare_except_rule (p : string) (i : Z) (l : string) :
  existsb (has_type "BARE_EXCEPT") (line_issues p (i, l)) = true
  <-> exists a ws b,
        l = (a ++ "except" ++ ws ++ ":" ++ b)%string
        /\ all_space ws = true.
Proof.
  rewrite existsb_line_rule.
  cbn [String.eqb Ascii.eqb Bool.eqb].
  rewrite !andb_false_r, andb_true_r, ?orb_false_r, ?orb_false_l.
  rewrite search_iff. split.
  - intros [a [s [-> Hs]]].
    apply (literal_space_literal "except" ":" s eq_refl) in Hs.
    destruct Hs as [ws [b [-> Hws]]]. exists a, ws, b. auto.
  - intros [a [ws [b [-> Hws]]]].
    exists a, ("except" ++ ws ++ ":" ++ b)%string. split; [reflexivity|].
    apply (literal_space_literal "except" ":" _ eq_refl).
    exists ws, b. auto.
Qed.

Lemma print_call_iff (l : string) :
  print_call_at_start l = true
  <-> exists ws1 ws2 b,
        l = (ws1 ++ "print" ++ ws2 ++ "(" ++ b)%string
        /\ all_space ws1 = true /\ all_space ws2 = true.
Proof.
  unfold print_call_at_start. split.
  - intros H.
    apply (literal_space_literal "print" "(" (lstrip l) eq_refl) in H.
    destruct H as [ws2 [b [Hl Hws2]]].
    destruct (lstrip_split l) as [ws1 [Hs Hws1]].
    exists ws1, ws2, b. rewrite <- Hl. auto.
  - intros [ws1 [ws2 [b [-> [Hws1 Hws2]]]]].
    rewrite lstrip_app by exact Hws1.
    change (lstrip ("print" ++ ws2 ++ "(" ++ b)%string)
      with ("print" ++ ws2 ++ "(" ++ b)%string.
    apply (literal_space_literal "print" "(" _ eq_refl).
    exists ws2, b. auto.
Qed.

(** X13: PRINT_STATEMENT fires on a line exactly when, after its
    indentation, the line starts with [print], white space or nothing, and
    an opening parenthesis, and the text [# noqa] occurs nowhere in it. *)
Theorem print_statement_rule (p : string) (i : Z) (l : string) :
  existsb (has_type "PRINT_STATEMENT") (line_issues p (i, l)) = true
  <-> (exists ws1 ws2 b,
          l = (ws1 ++ "print" ++ ws2 ++ "(" ++ b)%string
          /\ all_space ws1 = true /\ all_space ws2 = true)
      /\ ~ (exists a b, l = (a ++ "# noqa" ++ b)%string).
Proof.
  rewrite existsb_line_rule.
  cbn [String.eqb Ascii.eqb Bool.eqb].
  rewrite !andb_false_r, andb_true_r, ?orb_false_r, ?orb_false_l.
  rewrite andb_true_iff, negb_true_iff, print_call_iff.
  rewrite <- contains_iff, not_true_iff_false. reflexivity.
Qed.

Lemma lower_space (c : ascii) : isspace (lower c) = isspace c.
Proof. destruct c as [[] [] [] [] [] [] [] []]; reflexivity. Qed.

Lemma prefix_ci_iff (p s : string) :
  prefix_ci p s = true
  <-> exists k b, s = (k ++ b)%string /\ lowercase k = lowercase p.
Proof.
  split.
  - revert s. induction p as [|a p IH]; intros s H.
    + exists EmptyString, s. auto.
    + destruct s as [|c s]; [discriminate|]. simpl in H.
      apply andb_true_iff in H. destruct H as [Hc Hs].
      apply Ascii.eqb_eq in Hc.
      destruct (IH s Hs) as [k [b [-> Hk]]].
      exists (String c k), b. simpl. rewrite Hk, Hc. auto.
  - intros [k [b [-> Hk]]]. revert k Hk.
    induction p as [|a p IH]; intros k Hk; [reflexivity|].
    destruct k as [|c k]; [discriminate|]. simpl in Hk.
    injection Hk as Hc Hk. simpl.
    rewrite Hc, Ascii.eqb_refl. apply IH, Hk.
Qed.

Lemma marker_ci (r : string) :
  prefix_ci "TODO" r || prefix_ci "FIXME" r
  || prefix_ci "XXX" r || prefix_ci "HACK" r
  = true
  <-> exists kw b,
        r = (kw ++ b)%string /\ In (lowercase kw) pending_markers.
Proof.
  rewrite !orb_true_iff, !prefix_ci_iff. unfold pending_markers.
  split.
  - intros [[[H|H]|H]|H]; destruct H as [k [b [-> Hk]]];
      exists k, b; rewrite Hk; simpl; auto 6.
  - intros [kw [b [-> Hin]]]. simpl in Hin.
    destruct Hin as [H|[H|[H|[H|[]]]]].
    + left. left. left. exists kw, b. auto.
    + left. left. right. exists kw, b. auto.
    + left. right. exists kw, b. auto.
    + right. exists kw, b. auto.
Qed.

Lemma marker_head (kw : string) :
  In (lowercase kw) pending_markers -> isspace_head kw = false.
Proof.
  destruct kw as [|c kw]; simpl; [intros; reflexivity|].
  rewrite <- lower_space.
  intros [H|[H|[H|[H|[]]]]]; injection H as <- _; reflexivity.
Qed.

Lemma lstrip_nonspace (s : string) :
  isspace_head s = false -> lstrip s = s.
Proof. destruct s as [|c s]; simpl; [reflexivity|]. intros ->. reflexivity. Qed.

Lemma isspace_head_app (kw b : string) :
  kw <> EmptyString -> isspace_head (kw ++ b) = isspace_head kw.
Proof. destruct kw; [congruence|reflexivity]. Qed.

Lemma pending_here_iff (s : string) :
  pending_here s = true
  <-> exists ws kw b,
        s = ("#" ++ ws ++ kw ++ b)%string
        /\ all_space ws = true /\ In (lowercase kw) pending_markers.
Proof.
  split.
  - destruct s as [|c rest]; [discriminate|].
    destruct (Ascii.eqb_spec c "#") as [->|Hne].
    + cbn [pending_here]. intros H. apply marker_ci in H.
      destruct H as [kw [b [Hr Hin]]].
      destruct (lstrip_split rest) as [ws [Hs Hws]].
      exists ws, kw, b. rewrite <- Hr, <- Hs. auto.
    + destruct c as [[] [] [] [] [] [] [] []];
        try discriminate; congruence.
  - intros [ws [kw [b [-> [Hws Hin]]]]].
    change (pending_here ("#" ++ ws ++ kw ++ b)%string)
      with (let r := lstrip (ws ++ kw ++ b)%string in
            prefix_ci "TODO" r || prefix_ci "FIXME" r
            || prefix_ci "XXX" r || prefix_ci "HACK" r).
    cbv zeta. rewrite lstrip_app by exact Hws.
    rewrite lstrip_nonspace.
    + apply marker_ci. exists kw, b. auto.
    + rewrite isspace_head_app; [apply marker_head, Hin|].
      intros ->. simpl in Hin.
      destruct Hin as [H|[H|[H|[H|[]]]]]; discriminate.
Qed.

(** X14: PENDING_TASK fires on a line exactly when the line holds a [#],
    white space or nothing, and one of TODO, FIXME, XXX, HACK in any mix
    of capitals and small letters (as the start of a longer word too). *)
Theorem pending_task_rule (p : string) (i : Z) (l : string) :
  existsb (has_type "PENDING_TASK") (line_issues p (i, l)) = true
  <-> exists a ws kw b,
        l = (a ++ "#" ++ ws ++ kw ++ b)%string
        /\ all_space ws = true
        /\ In (lowercase kw) pending_markers.
Proof.
  rewrite existsb_line_rule.
  cbn [String.eqb Ascii.eqb Bool.eqb].
  rewrite !andb_false_r, andb_true_r, ?orb_false_r, ?orb_false_l.
  rewrite search_iff. split.
  - intros [a [s [-> Hs]]]. apply pending_here_iff in Hs.
    destruct Hs as [ws [kw [b [-> [Hws Hin]]]]]. exists a, ws, kw, b. auto.
  - intros [a [ws [kw [b [-> [Hws Hin]]]]]].
    exists a, ("#" ++ ws ++ kw ++ b)%string. split; [reflexivity|].
    apply pending_here_iff. exists ws, kw, b. auto.
Qed.

(** ** The report *)

Lemma insert_by_line_perm (x : CodeIssue) (l : list CodeIssue) :
  Permutation (insert_by_line x l) (x :: l).
Proof.
  induction l as [|y l IH]; simpl; [reflexivity|].
  destruct (line x <=? line y); [reflexivity|].
  rewrite IH. apply perm_swap.
Qed.

Lemma sorted_by_line_perm (l : list CodeIssue) :
  Permutation (sorted_by_line l) l.
Proof.
  induction l as [|x l IH]; simpl; [reflexivity|].
  rewrite insert_by_line_perm, IH. reflexivity.
Qed.

Lemma insert_by_line_sorted (x : CodeIssue) (l : list CodeIssue) :
  StronglySorted line_le l -> StronglySorted line_le (insert_by_line x l).
Proof.
  induction 1 as [|y l Hs IH Hy]; simpl.
  - repeat constructor.
  - destruct (Z.leb_spec (line x) (line y)) as [Hle|Hgt].
    + constructor; [constructor; assumption|].
      constructor; [exact Hle|].
      eapply Forall_impl; [|exact Hy]. unfold line_le. intros; lia.
    + constructor; [exact IH|].
      eapply Permutation_Forall; [symmetry; apply insert_by_line_perm|].
      constructor; [unfold line_le; lia|exact Hy].
Qed.

Lemma sorted_by_line_sorted (l : list CodeIssue) :
  StronglySorted line_le (sorted_by_line l).
Proof.
  induction l as [|x l IH]; simpl; [constructor|].
  apply insert_by_line_sorted, IH.
Qed.

Lemma insert_by_line_stable (k : Z) (x : CodeIssue) (l : list CodeIssue) :
  StronglySorted line_le l ->
  filter (fun i => line i =? k) (insert_by_line x l)
  = filter (fun i => line i =? k) (x :: l).
Proof.
  induction 1 as [|y l Hs IH Hy]; [reflexivity|].
  cbn [insert_by_line].
  destruct (Z.leb_spec (line x) (line y)) as [Hle|Hgt]; [reflexivity|].
  cbn [filter]. cbn [filter] in IH. rewrite IH.
  destruct (Z.eqb_spec (line x) k) as [Hx|Hx];
    destruct (Z.eqb_spec (line y) k) as [Hyk|Hyk];
    try reflexivity.
  lia.
Qed.

Lemma sorted_by_line_stable (k : Z) (l : list CodeIssue) :
  filter (fun i => line i =? k) (sorted_by_line l)
  = filter (fun i => line i =? k) l.
Proof.
  induction l as [|x l IH]; [reflexivity|].
  cbn [sorted_by_line fold_right].
  rewrite insert_by_line_stable by apply sorted_by_line_sorted.
  cbn [filter]. fold (sorted_by_line l). rewrite IH. reflexivity.
Qed.

Lemma known_severity_cases (i : CodeIssue) :
  known_severity i = true ->
  severity i = "HIGH" \/ severity i = "MEDIUM" \/ severity i = "LOW".
Proof.
  unfold known_severity. simpl. rewrite orb_false_r, !orb_true_iff.
  rewrite !String.eqb_eq. tauto.
Qed.

Lemma count_severity_cons (s : string) (i : CodeIssue)
  (l : list CodeIssue) :
  count_severity s (i :: l)
  = (if String.eqb (severity i) s then 1 else 0) + count_severity s l.
Proof.
  unfold count_severity. cbn [filter].
  destruct (String.eqb (severity i) s); cbn [List.length]; lia.
Qed.

Lemma count_loop (l : list CodeIssue) :
  forall a b c out,
    forallb known_severity l = true ->
    io_for l count_step (counters a b c) out
    = (out,
       Return
         (counters (a + count_severity "HIGH" l)
                   (b + count_severity "MEDIUM" l)
                   (c + count_severity "LOW" l))).
Proof.
  induction l as [|i l IH]; intros a b c out Hall.
  - unfold count_severity. simpl. rewrite !Z.add_0_r. reflexivity.
  - cbn [forallb] in Hall. apply andb_true_iff in Hall.
    destruct Hall as [Hi Hl].
    rewrite !count_severity_cons.
    cbn [io_for]. unfold io_bind at 1.
    destruct (known_severity_cases i Hi) as [Hs|[Hs|Hs]];
      unfold count_step at 1; rewrite Hs; cbn -[Z.add];
      fold (counters (a + 1) b c); fold (counters a (b + 1) c);
      fold (counters a b (c + 1));
      rewrite (IH _ _ _ out Hl); unfold counters;
      repeat (try lia; f_equal).
Qed.

Lemma count_loop_fails (l : list CodeIssue) :
  forall a b c out,
    forallb known_severity l = false ->
    io_for l count_step (counters a b c) out
    = (out, Raise (Exception "KeyError")).
Proof.
  induction l as [|i l IH]; intros a b c out Hall; [discriminate|].
  cbn [forallb] in Hall. cbn [io_for]. unfold io_bind at 1.
  destruct (known_severity i) eqn:Hi.
  - simpl in Hall.
    destruct (known_severity_cases i Hi) as [Hs|[Hs|Hs]];
      unfold count_step at 1; rewrite Hs; cbn -[Z.add];
      fold (counters (a + 1) b c); fold (counters a (b + 1) c);
      fold (counters a b (c + 1));
      apply IH, Hall.
  - unfold known_severity in Hi. simpl in Hi.
    rewrite orb_false_r in Hi.
    apply orb_false_iff in Hi. destruct Hi as [Hh Hi].
    apply orb_false_iff in Hi. destruct Hi as [Hm Hlow].
    unfold count_step, io_bind, io_lift, getitem, counters. simpl.
    rewrite Hh, Hm, Hlow. reflexivity.
Qed.

Lemma all_issues_known (results : list AnalysisResult) :
  forallb known_severity (all_issues results)
  = forallb (fun r => forallb known_severity (issues r)) results.
Proof.
  induction results as [|r rs IH]; simpl; [reflexivity|].
  rewrite forallb_app, IH. reflexivity.
Qed.

Lemma count_severity_app (s : string) (l1 l2 : list CodeIssue) :
  count_severity s (l1 ++ l2) = count_severity s l1 + count_severity s l2.
Proof.
  unfold count_severity. rewrite filter_app, length_app. lia.
Qed.

Lemma count_results (results : list AnalysisResult) :
  forall a b c out,
    forallb known_severity (all_issues results) = true ->
    io_for results
      (fun counts result => io_for (issues result) count_step counts)
      (counters a b c) out
    = (out,
       Return
         (counters (a + count_severity "HIGH" (all_issues results))
                   (b + count_severity "MEDIUM" (all_issues results))
                   (c + count_severity "LOW" (all_issues results)))).
Proof.
  induction results as [|r rs IH]; intros a b c out Hall.
  - unfold count_severity. simpl. rewrite !Z.add_0_r. reflexivity.
  - unfold all_issues in *. cbn [flat_map] in *.
    rewrite forallb_app in Hall. apply andb_true_iff in Hall.
    destruct Hall as [Hr Hrs].
    cbn [io_for]. unfold io_bind at 1.
    rewrite (count_loop _ _ _ _ out Hr), (IH _ _ _ out Hrs).
    rewrite !count_severity_app. unfold counters.
    repeat (try lia; f_equal).
Qed.

Lemma count_results_fails (results : list AnalysisResult) :
  forall a b c out,
    forallb known_severity (all_issues results) = false ->
    io_for results
      (fun counts result => io_for (issues result) count_step counts)
      (counters a b c) out
    = (out, Raise (Exception "KeyError")).
Proof.
  induction results as [|r rs IH]; intros a b c out Hall; [discriminate|].
  unfold all_issues in *. cbn [flat_map] in *.
  rewrite forallb_app in Hall.
  cbn [io_for]. unfold io_bind at 1.
  destruct (forallb known_severity (issues r)) eqn:Hr.
  - rewrite (count_loop _ _ _ _ out Hr). apply IH. exact Hall.
  - rewrite (count_loop_fails _ _ _ _ out Hr). reflexivity.
Qed.

Lemma print_issues (l : list CodeIssue) :
  forall out,
    forallb known_severity l = true ->
    io_for l print_issue tt out
    = (out ++ flat_map issue_lines l, Return tt).
Proof.
  induction l as [|i l IH]; intros out Hall.
  - simpl. rewrite app_nil_r. reflexivity.
  - cbn [forallb] in Hall. apply andb_true_iff in Hall.
    destruct Hall as [Hi Hl].
    cbn [io_for flat_map]. unfold io_bind at 1.
    assert (Hstep : print_issue tt i out
                    = (out ++ issue_lines i, Return tt)).
    { unfold print_issue, issue_lines, io_bind, io_lift, getitem, print.
      destruct (known_severity_cases i Hi) as [Hs|[Hs|Hs]];
        rewrite Hs; cbn [lookup severity_icons String.eqb Ascii.eqb
                           Bool.eqb];
        rewrite <- !app_assoc; reflexivity. }
    rewrite Hstep, (IH _ Hl), <- app_assoc. reflexivity.
Qed.

Lemma forallb_perm {A : Type} (f : A -> bool) (l1 l2 : list A) :
  Permutation l1 l2 -> forallb f l1 = forallb f l2.
Proof.
  induction 1; simpl; try congruence.
  - rewrite !andb_assoc, (andb_comm (f y)). reflexivity.
Qed.

Lemma print_files (results : list AnalysisResult) :
  forall out,
    forallb known_severity (all_issues results) = true ->
    io_for results print_file tt out
    = (out ++ flat_map file_lines results, Return tt).
Proof.
  induction results as [|r rs IH]; intros out Hall.
  - simpl. rewrite app_nil_r. reflexivity.
  - unfold all_issues in *. cbn [flat_map] in *.
    rewrite forallb_app in Hall. apply andb_true_iff in Hall.
    destruct Hall as [Hr Hrs].
    cbn [io_for]. unfold io_bind at 1.
    unfold file_lines at 1. unfold print_file at 1.
    assert (Hsorted : forallb known_severity (sorted_by_line (issues r))
                      = true).
    { rewrite (forallb_perm _ _ _ (sorted_by_line_perm (issues r))).
      exact Hr. }
    destruct (nonempty (issues r)).
    + unfold io_bind at 1. unfold print at 1.
      unfold io_bind at 1. unfold print at 1.
      unfold io_bind at 1.
      destruct (nonempty (metrics r)).
      * unfold print at 1.
        rewrite (print_issues _ _ Hsorted), (IH _ Hrs).
        rewrite <- !app_assoc. reflexivity.
      * unfold io_ret at 1.
        rewrite (print_issues _ _ Hsorted), (IH _ Hrs).
        rewrite <- !app_assoc. reflexivity.
    + unfold io_ret at 1. rewrite (IH _ Hrs). reflexivity.
Qed.

Lemma total_issues_length (results : list AnalysisResult) :
  sumZ (map (fun r => Z.of_nat (List.length (issues r))) results)
  = Z.of_nat (List.length (all_issues results)).
Proof.
  unfold all_issues. induction results as [|r rs IH]; simpl;
    [reflexivity|].
  rewrite IH, length_app. lia.
Qed.

(** [print_report], with its three loop bodies named. *)
Lemma print_report_unfold (results : list AnalysisResult) :
  print_report results
  = (print (nl ++ str_mul "=" 60) ;;;
     print "ATENA CODE ANALYSIS REPORT" ;;;
     print (str_mul "=" 60) ;;;
     if negb (nonempty results) then print (nl ++ "No files analyzed.")
     else
       print (nl ++ "Files analyzed: "
              ++ str_of_int (Z.of_nat (List.length results))) ;;;
       print ("Total issues found: "
              ++ str_of_int
                   (sumZ (map (fun r => Z.of_nat (List.length (issues r)))
                            results))) ;;;
       severity_counts <~
         io_for results
           (fun counts result => io_for (issues result) count_step counts)
           (counters 0 0 0) ;;
       print (nl ++ "By severity:") ;;;
       high <~ io_lift (getitem severity_counts "HIGH") ;;
       print ("  ðŸ”´ HIGH:   " ++ str_of_int high) ;;;
       medium <~ io_lift (getitem severity_counts "MEDIUM") ;;
       print ("  ðŸŸ¡ MEDIUM: " ++ str_of_int medium) ;;;
       low <~ io_lift (getitem severity_counts "LOW") ;;
       print ("  ðŸŸ¢ LOW:    " ++ str_of_int low) ;;;
       io_for results print_file tt ;;;
       print (nl ++ str_mul "=" 60)).
Proof. reflexivity. Qed.

Lemma print_report_known (results : list AnalysisResult) :
  results <> [] ->
  forallb known_severity (all_issues results) = true ->
  print_report results []
  = (report_summary results ++ flat_map file_lines results
     ++ [(nl ++ str_mul "=" 60)%string],
     Return tt).
Proof.
  intros Hne Hall. rewrite print_report_unfold.
  destruct results as [|r rs]; [congruence|].
  cbn [nonempty negb].
  unfold io_bind at 1. unfold print at 1.
  unfold io_bind at 1. unfold print at 1.
  unfold io_bind at 1. unfold print at 1.
  unfold io_bind at 1. unfold print at 1.
  unfold io_bind at 1. unfold print at 1.
  unfold io_bind at 1.
  rewrite (count_results (r :: rs) 0 0 0 _ Hall).
  unfold io_bind at 1. unfold print at 1.
  unfold io_bind at 1. unfold io_lift at 1.
  unfold io_bind at 1. unfold print at 1.
  unfold io_bind at 1. unfold io_lift at 1.
  unfold io_bind at 1. unfold print at 1.
  unfold io_bind at 1. unfold io_lift at 1.
  unfold io_bind at 1. unfold print at 1.
  cbn [getitem lookup counters String.eqb Ascii.eqb Bool.eqb].
  unfold io_bind at 1.
  rewrite (print_files (r :: rs) _ Hall).
  unfold print. rewrite total_issues_length, !Z.add_0_l.
  unfold report_summary. cbn [app]. rewrite <- ?app_assoc.
  reflexivity.
Qed.

Lemma print_report_unknown (results : list AnalysisResult) :
  forallb known_severity (all_issues results) = false ->
  print_report results []
  = (report_opening results, Raise (Exception "KeyError")).
Proof.
  intros Hall. rewrite print_report_unfold.
  destruct results as [|r rs]; [discriminate|].
  cbn [nonempty negb].
  unfold io_bind at 1. unfold print at 1.
  unfold io_bind at 1. unfold print at 1.
  unfold io_bind at 1. unfold print at 1.
  unfold io_bind at 1. unfold print at 1.
  unfold io_bind at 1. unfold print at 1.
  unfold io_bind at 1.
  rewrite (count_results_fails (r :: rs) 0 0 0 _ Hall).
  rewrite total_issues_length. reflexivity.
Qed.

(** X15: [print_report] stops with a [KeyError] exactly when some issue
    carries a severity other than HIGH, MEDIUM or LOW, and has then
    printed the title and the two totals only.  Otherwise it prints the
    summary, the lines of every file that has issues and the closing rule;
    for an empty list, the title and [No files analyzed.] and nothing
    else. *)
Theorem report_output (results : list AnalysisResult) :
  print_report results []
  = if forallb known_severity (all_issues results)
    then (report_text results, Return tt)
    else (report_opening results, Raise (Exception "KeyError")).
Proof.
  destruct (forallb known_severity (all_issues results)) eqn:Hall.
  - destruct results as [|r rs]; [reflexivity|].
    rewrite print_report_known by (congruence || exact Hall).
    reflexivity.
  - apply print_report_unknown, Hall.
Qed.

Lemma severity_partition (l : list CodeIssue) :
  forallb known_severity l = true ->
  count_severity "HIGH" l + count_severity "MEDIUM" l
  + count_severity "LOW" l
  = Z.of_nat (List.length l).
Proof.
  induction l as [|i l IH]; intros Hall; [reflexivity|].
  cbn [forallb] in Hall. apply andb_true_iff in Hall.
  destruct Hall as [Hi Hl]. specialize (IH Hl).
  rewrite !count_severity_cons. cbn [List.length].
  rewrite Nat2Z.inj_succ.
  destruct (known_severity_cases i Hi) as [Hs|[Hs|Hs]]; rewrite Hs;
    cbn [String.eqb Ascii.eqb Bool.eqb]; lia.
Qed.

(** X16: when every severity is one of the three, the numbers the report
    prints for HIGH, MEDIUM and LOW add up to the number it prints as
    [Total issues found], the number of issues of all the files. *)
Theorem report_counts_add_up (results : list AnalysisResult) :
  results <> [] ->
  forallb known_severity (all_issues results) = true ->
  exists high medium low details,
    fst (print_report results [])
    = report_opening results
      ++ [(nl ++ "By severity:")%string;
          ("  ðŸ”´ HIGH:   " ++ str_of_int high)%string;
          ("  ðŸŸ¡ MEDIUM: " ++ str_of_int medium)%string;
          ("  ðŸŸ¢ LOW:    " ++ str_of_int low)%string]
      ++ details
    /\ high + medium + low = Z.of_nat (List.length (all_issues results)).
Proof.
  intros Hne Hall.
  exists (count_severity "HIGH" (all_issues results)),
    (count_severity "MEDIUM" (all_issues results)),
    (count_severity "LOW" (all_issues results)),
    (flat_map file_lines results ++ [(nl ++ str_mul "=" 60)%string]).
  split; [|apply severity_partition, Hall].
  rewrite print_report_known by assumption. reflexivity.
Qed.

Lemma flat_map_block {A B : Type} (f : A -> list B) (x : A) (xs : list A) :
  In x xs ->
  exists before after, flat_map f xs = before ++ f x ++ after.
Proof.
  intros Hin. destruct (in_split _ _ Hin) as [l1 [l2 ->]].
  exists (flat_map f l1), (flat_map f l2).
  rewrite flat_map_app. reflexivity.
Qed.

Lemma file_lines_block (r : AnalysisResult) :
  issues r <> [] ->
  exists head,
    file_lines r
    = head ++ flat_map issue_lines (sorted_by_line (issues r)).
Proof.
  intros Hne. unfold file_lines.
  destruct (issues r) as [|i l] eqn:Hi; [congruence|].
  cbn [nonempty]. eexists. rewrite app_assoc. reflexivity.
Qed.

(** X17: in the report, the issues of a file are listed by line number,
    smallest first; each issue of the file is listed once, and issues on
    the same line keep the order in which they were found. *)
Theorem report_details_sorted (results : list AnalysisResult)
  (r : AnalysisResult) :
  forallb known_severity (all_issues results) = true ->
  In r results ->
  issues r <> [] ->
  exists before after shown,
    fst (print_report results [])
    = before ++ flat_map issue_lines shown ++ after
    /\ Permutation shown (issues r)
    /\ StronglySorted line_le shown
    /\ forall k,
         filter (fun i => line i =? k) shown
         = filter (fun i => line i =? k) (issues r).
Proof.
  intros Hall Hin Hne.
  assert (Hres : results <> []) by (intros ->; contradiction).
  rewrite print_report_known by assumption. cbn [fst].
  destruct (flat_map_block file_lines r results Hin) as [b [a Hb]].
  destruct (file_lines_block r Hne) as [head Hhead].
  rewrite Hb, Hhead.
  exists (report_summary results ++ b ++ head),
    (a ++ [(nl ++ str_mul "=" 60)%string]),
    (sorted_by_line (issues r)).
  split.
  - repeat rewrite <- app_assoc. reflexivity.
  - split; [apply sorted_by_line_perm|].
    split; [apply sorted_by_line_sorted|].
    intros k. apply sorted_by_line_stable.
Qed.

Lemma severity_is_known (i : CodeIssue) :
  severity_of_kind (issue_type i) = Some (severity i) ->
  known_severity i = true.
Proof.
  unfold severity_of_kind, known_severity.
  repeat match goal with
         | |- context [if ?c then _ else _] => destruct c
         end; intros H; try discriminate;
    injection H as <-; reflexivity.
Qed.

Lemma analyze_known_severity (p : string) (r : AnalysisResult) :
  analyze p = Return r -> forallb known_severity (issues r) = true.
Proof.
  intros Hrun. apply forallb_forall. intros i Hin.
  apply severity_is_known.
  destruct (analyze_cases p r Hrun)
    as [[content [tree [Hread Hparse]]]|[msg [lineno ->]]].
  - destruct (analyze_parsed p content tree Hread Hparse) as [r' [Hr' Hi]].
    rewrite Hrun in Hr'. injection Hr' as <-. rewrite Hi in Hin.
    apply in_app_or in Hin. destruct Hin as [Hin|Hin];
      [|apply in_app_or in Hin; destruct Hin as [Hin|Hin]];
      apply in_flat_map in Hin; destruct Hin as [x [_ Hx]].
    + eapply function_issues_severity; eassumption.
    + eapply class_issues_severity; eassumption.
    + eapply line_issues_severity; eassumption.
  - simpl in Hin. destruct Hin as [<-|[]]. reflexivity.
Qed.

Lemma analyze_path_known (path : string) (results : list AnalysisResult) :
  analyze_path path = Return results ->
  forallb known_severity (all_issues results) = true.
Proof.
  unfold analyze_path, analyze_file. intros Hrun.
  destruct (is_file path).
  - destruct (path_exists path); simpl in Hrun;
      [|injection Hrun as <-; reflexivity].
    destruct (String.eqb (suffix path) ".py"); simpl in Hrun;
      [|injection Hrun as <-; reflexivity].
    destruct (analyze path) as [r|e] eqn:Hr; simpl in Hrun;
      [|discriminate].
    injection Hrun as <-. unfold all_issues. simpl.
    rewrite app_nil_r. apply (analyze_known_severity path r Hr).
  - destruct (is_dir path); [|injection Hrun as <-; reflexivity].
    simpl in Hrun.
    change (x <- for_each (rglob path "*.py") walk_step [] ;; Return x
            = Return results) in Hrun.
    destruct (for_each (rglob path "*.py") walk_step []) as [res|e]
      eqn:Hloop; [|discriminate].
    simpl in Hrun. injection Hrun as <-.
    destruct (walk_files_returned _ _ _ Hloop) as [rs [-> Hrs]]. simpl.
    rewrite all_issues_known. apply forallb_forall. intros r Hr.
    clear Hloop.
    induction Hrs as [|f r' fs rs' Hfr Hrs' IH]; [contradiction|].
    destruct Hr as [<-|Hr].
    + apply (analyze_known_severity f r' Hfr).
    + apply IH, Hr.
Qed.

(** X18: the report of what [analyze_path] returned never fails: every
    severity the analyzer gives is one the report counts, so the
    [__main__] sequence of the two prints a complete report. *)
Theorem report_of_analysis_completes (path : string)
  (results : list AnalysisResult) :
  analyze_path path = Return results ->
  print_report results [] = (report_text results, Return tt).
Proof.
  intros Hrun.
  pose proof (print_report_unfold results) as _.
  destruct (forallb known_severity (all_issues results)) eqn:Hall.
  - destruct results as [|r rs]; [reflexivity|].
    rewrite print_report_known by (congruence || exact Hall).
    reflexivity.
  - rewrite (analyze_path_known path results Hrun) in Hall. discriminate.
Qed.

End Analyzer.

(** ** Worked inputs

    A small runtime: a directory [d] of three files, one of which does not
    parse and one of which sits in a virtual environment, and some files
    beside it; each file is given by its text and by the tree the parser
    builds from that text. *)

Definition no_arguments : arguments_of node :=
  mk_arguments [] [] None [] [] None [].

Definition name_ (id : string) : node := Other "Name" [Other "Load" []].
Definition target_ (id : string) : node := Other "Name" [Other "Store" []].
Definition arg_ (id : string) : node := Other "arg" [].

(** [x = 1] *)
Definition assign_x : node :=
  Other "Assign" [target_ "x"; Other "Constant" []].

(** [def branchy(): if a and b and c: pass], lines 1 to 2. *)
Definition branchy : node :=
  FunctionDef "branchy" 1 (Some 2) no_arguments
    [If [BoolOp (Other "And" []) [name_ "a"; name_ "b"; name_ "c"];
         Other "Pass" []]]
    [] None [].

(** [def outer():] holding [def inner(): while x: pass] on lines 2 to 4 and
    [for i in xs: pass] on lines 5 to 6. *)
Definition inner : node :=
  FunctionDef "inner" 2 (Some 4) no_arguments
    [While [name_ "x"; Other "Pass" []]] [] None [].

Definition outer : node :=
  FunctionDef "outer" 1 (Some 6) no_arguments
    [inner; For [target_ "i"; name_ "xs"; Other "Pass" []]] [] None [].

Fixpoint replicate (n : nat) (c : ascii) : string :=
  match n with
  | O => EmptyString
  | S k => String c (replicate k c)
  end.

Definition newline : string := String "010"%char EmptyString.

(** [d/a.py]: a text the parser rejects on its first line. *)
Definition broken_content : string := "def f(:".

(** [d/b.py] *)
Definition plain_content : string := "x = 1".

(** [six.py] *)
Definition six_content : string := "def f(a, b, c, d, e, f): pass".

Definition six_arguments : arguments_of node :=
  mk_arguments []
    [arg_ "a"; arg_ "b"; arg_ "c"; arg_ "d"; arg_ "e"; arg_ "f"]
    None [] [] None [].

Definition six_parameters : node :=
  FunctionDef "f" 1 (Some 1) six_arguments [Other "Pass" []] [] None [].

(** [async.py]: the same declaration with [async] before it; the parser
    builds an [ast.AsyncFunctionDef], which is no [ast.FunctionDef]. *)
Definition async_content : string := "async def f(a, b, c, d, e, f): pass".

Definition async_six_parameters : node :=
  Other "AsyncFunctionDef" [Arguments six_arguments; Other "Pass" []].

(** [def g(p, q, /, a, b, c, d, e, *rest, k1, k2, **kw): pass] *)
Definition many_other_parameters : node :=
  FunctionDef "g" 1 (Some 1)
    (mk_arguments [arg_ "p"; arg_ "q"]
       [arg_ "a"; arg_ "b"; arg_ "c"; arg_ "d"; arg_ "e"]
       (Some (arg_ "rest")) [arg_ "k1"; arg_ "k2"] [] (Some (arg_ "kw")) [])
    [Other "Pass" []] [] None [].

(** [nested.py]: a class whose method holds a closure. *)
Definition nested_content : string :=
  ("class C:" ++ newline
   ++ "    def method():" ++ newline
   ++ "        def closure():" ++ newline
   ++ "            pass")%string.

Definition closure : node :=
  FunctionDef "closure" 3 (Some 4) no_arguments [Other "Pass" []] [] None [].

Definition nested_module : node :=
  Module
    [ClassDef "C" 1 [] []
       [FunctionDef "method" 2 (Some 4) no_arguments [closure] [] None []]
       [] []].

(** [large.py]: a class of 21 methods, [m1] on line 2 to [m21] on
    line 22. *)
Definition method_text (k : nat) : string :=
  (newline ++ "    def m" ++ str_of_int (Z.of_nat k) ++ "(self): pass")%string.

Definition large_content : string :=
  ("class C:" ++ String.concat "" (map method_text (seq 1 21)))%string.

Definition method_node (k : nat) : node :=
  FunctionDef ("m" ++ str_of_int (Z.of_nat k))
    (Z.of_nat k + 1) (Some (Z.of_nat k + 1))
    (mk_arguments [] [arg_ "self"] None [] [] None [])
    [Other "Pass" []] [] None [].

Definition large_class : node :=
  ClassDef "C" 1 [] [] (map method_node (seq 1 21)) [] [].

(** [long.py]: a line of 121 characters over a line of 120, each a
    name. *)
Definition long_content : string :=
  (replicate 121 "x"%char ++ newline ++ replicate 120 "x"%char)%string.

Definition long_module : node :=
  Module [Other "Expr" [name_ (replicate 121 "x"%char)];
          Other "Expr" [name_ (replicate 120 "x"%char)]].

(** A comment, an empty line, a statement, and the empty piece that
    follows the last newline. *)
Definition commented_content : string :=
  ("# header" ++ newline ++ newline ++ "x = 1" ++ newline)%string.

(** Six lines, three of which meet one line rule each. *)
Definition lexical_content : string :=
  ("print(1)" ++ newline
   ++ "try:" ++ newline
   ++ "    pass" ++ newline
   ++ "except :" ++ newline
   ++ "    pass" ++ newline
   ++ "x = 1  # todo")%string.

Definition lexical_module : node :=
  Module
    [Other "Expr" [Other "Call" [name_ "print"; Other "Constant" []]];
     Other "Try" [Other "Pass" []; ExceptHandler [Other "Pass" []]];
     assign_x].

(** None of the declarations above has a docstring. *)
Definition demo_docstring (n : node) : option string := None.

Definition demo_files : list (string * string) :=
  [("d/a.py", broken_content);
   ("d/venv/lib.py", plain_content);
   ("d/b.py", plain_content);
   ("six.py", six_content);
   ("async.py", async_content);
   ("nested.py", nested_content);
   ("large.py", large_content);
   ("long.py", long_content)].

(** [Path.read_text]; with [unreadable], [d/a.py] holds bytes that are no
    UTF-8. *)
Definition demo_read (unreadable : bool) (path : string) : outcome string :=
  if unreadable && String.eqb path "d/a.py"
  then Raise (Exception "UnicodeDecodeError")
  else
    match find (fun f => String.eqb path (fst f)) demo_files with
    | Some f => Return (snd f)
    | None => Raise (Exception "FileNotFoundError")
    end.

(** What [ast.parse] answers on the texts above; no other text is parsed
    below. *)
Definition demo_trees : list (string * outcome node) :=
  [(broken_content, Raise (SyntaxError "invalid syntax" (Some 1)));
   (plain_content, Return (Module [assign_x]));
   (six_content, Return (Module [six_parameters]));
   (async_content, Return (Module [async_six_parameters]));
   (nested_content, Return nested_module);
   (large_content, Return (Module [large_class]));
   (long_content, Return long_module);
   (commented_content, Return (Module [assign_x]));
   (lexical_content, Return lexical_module)].

Definition demo_parse (content : string) : outcome node :=
  match find (fun t => String.eqb content (fst t)) demo_trees with
  | Some t => snd t
  | None => Raise (Exception "RecursionError")
  end.

Definition demo_is_file (path : string) : bool :=
  existsb (fun f => String.eqb path (fst f)) demo_files.

Definition demo_is_dir (path : string) : bool :=
  String.eqb path "d" || String.eqb path "d/venv".

Definition demo_exists (path : string) : bool :=
  demo_is_file path || demo_is_dir path.

Definition demo_suffix (path : string) : string :=
  String.substring (String.length path - 3) 3 path.

Definition demo_rglob (path pattern : string) : list string :=
  if String.eqb path "d" && String.eqb pattern "*.py"
  then ["d/a.py"; "d/venv/lib.py"; "d/b.py"]
  else [].

Definition demo_analyze (unreadable : bool) (path : string)
  : outcome AnalysisResult :=
  analyze demo_docstring demo_parse (demo_read unreadable) path.

Definition demo_analyze_path (unreadable : bool) (path : string)
  : outcome (list AnalysisResult) :=
  analyze_path demo_docstring demo_parse (demo_read unreadable)
    demo_exists demo_is_file demo_is_dir demo_suffix demo_rglob path.

Definition returned (o : outcome AnalysisResult) : AnalysisResult :=
  match o with
  | Return r => r
  | Raise _ => mkAnalysisResult "" [] []
  end.

(** ** The theorems at the worked inputs *)


Example complexity_branchy : _calculate_complexity branchy = 4.
Proof. reflexivity. Qed.

Example complexity_of_straight_line :
  _calculate_complexity six_parameters = 1.
Proof. reflexivity. Qed.

(** The [while] of [inner] counts for [inner] and again for [outer]. *)
Lemma nested_decisions_counted_in_outer_witness :
  is_FunctionDef outer = true
  /\ In inner (flat_map subtree (iter_child_nodes outer))
  /\ exists before after,
       subtree outer = before ++ subtree inner ++ after
       /\ _calculate_complexity inner
          = 1 + sumZ (map decision_weight (subtree inner))
       /\ _calculate_complexity outer
          = _calculate_complexity inner
            + sumZ (map decision_weight before)
            + sumZ (map decision_weight after)
       /\ (well_formed outer = true ->
           _calculate_complexity inner <= _calculate_complexity outer).
Proof.
  assert (Hin : In inner (flat_map subtree (iter_child_nodes outer))).
  { simpl. right. left. reflexivity. }
  split; [reflexivity|]. split; [exact Hin|].
  apply (nested_decisions_counted_in_outer outer inner);
    [reflexivity|exact Hin].
Defined.

Example complexity_outer_inner :
  _calculate_complexity inner = 2 /\ _calculate_complexity outer = 3.
Proof. split; reflexivity. Qed.

(** [d/a.py] does not parse. *)
Lemma syntax_error_single_issue_witness :
  demo_read false "d/a.py" = Return "def f(:"
  /\ demo_parse "def f(:" = Raise (SyntaxError "invalid syntax" (Some 1))
  /\ demo_analyze false "d/a.py"
     = Return
         (mkAnalysisResult "d/a.py"
            [mkCodeIssue "d/a.py" 1 "SYNTAX_ERROR" "HIGH"
               "Syntax error: invalid syntax"
               "Fix the syntax error before proceeding"]
            []).
Proof.
  split; [reflexivity|]. split; [reflexivity|].
  apply (syntax_error_single_issue demo_docstring demo_parse
           (demo_read false) "d/a.py" "def f(:" "invalid syntax" (Some 1));
    reflexivity.
Defined.

(** The class, its method and the closure inside the method are visited
    and checked. *)
Lemma every_declaration_checked_witness :
  demo_read false "nested.py" = Return nested_content
  /\ demo_parse nested_content = Return nested_module
  /\ Permutation (walk nested_module) (subtree nested_module)
  /\ exists r,
       demo_analyze false "nested.py" = Return r
       /\ (forall n,
             In n (subtree nested_module) ->
             is_FunctionDef n || is_ClassDef n = true ->
             In n (walk nested_module)
             /\ incl (function_issues demo_docstring "nested.py" n)
                  (issues r)
             /\ incl (class_issues demo_docstring "nested.py" n) (issues r)
             /\ rules_applied demo_docstring n (issues r))
       /\ (forall i,
             In i (issues r) ->
             (exists n,
                In n (subtree nested_module) /\ is_FunctionDef n = true
                /\ In i (function_issues demo_docstring "nested.py" n))
             \/ (exists n,
                   In n (subtree nested_module) /\ is_ClassDef n = true
                   /\ In i (class_issues demo_docstring "nested.py" n))
             \/ In i (flat_map (line_issues "nested.py")
                        (enumerate (split_lines nested_content) 1))).
Proof.
  split; [reflexivity|]. split; [reflexivity|].
  apply (every_declaration_checked demo_docstring demo_parse
           (demo_read false) "nested.py" nested_content nested_module);
    reflexivity.
Defined.

Example closure_is_checked :
  In closure (subtree nested_module)
  /\ is_FunctionDef closure = true
  /\ In (mkCodeIssue "nested.py" 3 "MISSING_DOCSTRING" "LOW"
           "Function 'closure' lacks a docstring"
           "Add a docstring describing the function's purpose and parameters")
        (issues (returned (demo_analyze false "nested.py"))).
Proof.
  split; [|split; [reflexivity|]].
  - simpl. do 4 right. left. reflexivity.
  - right. left. reflexivity.
Qed.

(** C3, counterexample: [async def f(a, b, c, d, e, f): pass] declares a
    function of six parameters without a docstring.  The traversal reaches
    its node, the test of [_analyze_functions] turns it away, and the result
    holds no issue; the same declaration without [async] gets two. *)
Lemma async_function_is_not_checked :
  demo_read false "async.py" = Return async_content
  /\ demo_parse async_content = Return (Module [async_six_parameters])
  /\ In async_six_parameters (walk (Module [async_six_parameters]))
  /\ is_FunctionDef async_six_parameters = false
  /\ demo_analyze false "async.py"
     = Return
         (mkAnalysisResult "async.py" []
            [("total_lines", 1); ("blank_lines", 0); ("comment_lines", 0)])
  /\ demo_read false "six.py" = Return six_content
  /\ demo_parse six_content = Return (Module [six_parameters])
  /\ demo_analyze false "six.py"
     = Return
         (mkAnalysisResult "six.py"
            [mkCodeIssue "six.py" 1 "MISSING_DOCSTRING" "LOW"
               "Function 'f' lacks a docstring"
               "Add a docstring describing the function's purpose and parameters";
             mkCodeIssue "six.py" 1 "TOO_MANY_PARAMETERS" "MEDIUM"
               "Function 'f' has 6 parameters"
               "Consider using a configuration object or dataclass to group parameters"]
            [("total_lines", 1); ("blank_lines", 0); ("comment_lines", 0)]).
Proof.
  repeat split; try reflexivity.
  right. left. reflexivity.
Qed.

(** The first line of [long.py] has 121 characters. *)
Lemma line_too_long_exactly_once_witness :
  demo_read false "long.py" = Return long_content
  /\ demo_parse long_content = Return long_module
  /\ nth_error (split_lines long_content) 0
     = Some (replicate 121 "x"%char)
  /\ exists r,
       demo_analyze false "long.py" = Return r
       /\ filter (too_long_on 1) (issues r)
          = [mkCodeIssue "long.py" 1 "LINE_TOO_LONG" "LOW"
               "Line exceeds 120 characters (121 chars)"
               "Break the line into multiple lines for better readability"].
Proof.
  split; [reflexivity|]. split; [reflexivity|]. split; [reflexivity|].
  apply (line_too_long_exactly_once demo_docstring demo_parse
           (demo_read false) "long.py" long_content long_module 0
           (replicate 121 "x"%char));
    reflexivity.
Defined.

(** Its second line has 120 characters and carries no issue. *)
Example line_of_120_is_fine :
  nth_error (split_lines long_content) 1 = Some (replicate 120 "x"%char)
  /\ filter (too_long_on 2) (issues (returned (demo_analyze false "long.py")))
     = [].
Proof. split; reflexivity. Qed.

Lemma severity_fixed_by_kind_witness :
  let r := returned (demo_analyze false "six.py") in
  let i :=
    mkCodeIssue "six.py" 1 "TOO_MANY_PARAMETERS" "MEDIUM"
      "Function 'f' has 6 parameters"
      "Consider using a configuration object or dataclass to group parameters" in
  demo_analyze false "six.py" = Return r
  /\ In i (issues r)
  /\ severity_of_kind (issue_type i) = Some (severity i).
Proof.
  intros r i.
  assert (Hrun : demo_analyze false "six.py" = Return r) by reflexivity.
  assert (Hin : In i (issues r)) by (right; left; reflexivity).
  split; [exact Hrun|]. split; [exact Hin|].
  exact (severity_fixed_by_kind demo_docstring demo_parse (demo_read false)
           "six.py" r i Hrun Hin).
Defined.

Example plain_parameters_only :
  existsb (has_type "TOO_MANY_PARAMETERS")
    (function_issues demo_docstring "g.py" many_other_parameters) = false
  /\ existsb (has_type "TOO_MANY_PARAMETERS")
       (function_issues demo_docstring "f.py" six_parameters) = true.
Proof. split; reflexivity. Qed.

Lemma issues_in_discovery_order_witness :
  let p := "nested.py" in
  let content := nested_content in
  let tree := nested_module in
  demo_read false p = Return content
  /\ demo_parse content = Return tree
  /\ exists r,
       demo_analyze false p = Return r
       /\ issues r
          = flat_map (function_issues demo_docstring p)
              (filter is_FunctionDef (walk tree))
            ++ flat_map (class_issues demo_docstring p)
                 (filter is_ClassDef (walk tree))
            ++ flat_map (line_issues p) (enumerate (split_lines content) 1)
       /\ (forall n,
             subsequence (map issue_type (function_issues demo_docstring p n))
               ["LONG_FUNCTION"; "MISSING_DOCSTRING"; "TOO_MANY_PARAMETERS";
                "HIGH_COMPLEXITY"])
       /\ (forall n,
             subsequence (map issue_type (class_issues demo_docstring p n))
               ["MISSING_DOCSTRING"; "LARGE_CLASS"])
       /\ (forall i l,
             subsequence (map issue_type (line_issues p (i, l)))
               ["LINE_TOO_LONG"; "PENDING_TASK"; "BARE_EXCEPT";
                "PRINT_STATEMENT"]
             /\ Forall (fun x => line x = i) (line_issues p (i, l)))
       /\ StronglySorted Z.le
            (map line
               (flat_map (line_issues p)
                  (enumerate (split_lines content) 1))).
Proof.
  intros p content tree.
  split; [reflexivity|]. split; [reflexivity|].
  apply (issues_in_discovery_order demo_docstring demo_parse
           (demo_read false) p content tree); reflexivity.
Defined.

(** C4, at the failing inputs: the TOO_MANY_PARAMETERS message of
    [def f(a, b, c, d, e, f): pass] holds the count 6 and not the limit 5 it
    was compared with; the LARGE_CLASS message of a class of 21 methods
    holds the count 21 and not the limit 20. *)
Lemma count_messages_lack_the_limit :
  (demo_read false "six.py" = Return six_content
   /\ demo_parse six_content = Return (Module [six_parameters])
   /\ parameter_count six_parameters = 6
   /\ exists r,
        demo_analyze false "six.py" = Return r
        /\ filter (has_type "TOO_MANY_PARAMETERS") (issues r)
           = [mkCodeIssue "six.py" 1 "TOO_MANY_PARAMETERS" "MEDIUM"
                "Function 'f' has 6 parameters"
                "Consider using a configuration object or dataclass to group parameters"]
        /\ contains (str_of_int 5) "Function 'f' has 6 parameters" = false)
  /\ (demo_read false "large.py" = Return large_content
      /\ demo_parse large_content = Return (Module [large_class])
      /\ method_count large_class = 21
      /\ exists r,
           demo_analyze false "large.py" = Return r
           /\ filter (has_type "LARGE_CLASS") (issues r)
              = [mkCodeIssue "large.py" 1 "LARGE_CLASS" "MEDIUM"
                   "Class 'C' has 21 methods"
                   "Consider splitting into smaller, focused classes (Single Responsibility)"]
           /\ contains (str_of_int 20) "Class 'C' has 21 methods" = false).
Proof.
  split.
  - split; [reflexivity|]. split; [reflexivity|]. split; [reflexivity|].
    eexists. split; [reflexivity|]. split; reflexivity.
  - split; [reflexivity|]. split; [reflexivity|]. split; [reflexivity|].
    eexists. split; [reflexivity|]. split; reflexivity.
Qed.

(** The two rules beside them print their limit. *)
Example sibling_messages_print_the_limit :
  map message
    (function_issues demo_docstring "f.py"
       (FunctionDef "f" 1 (Some 51) no_arguments [] [] None []))
  = ["Function 'f' has 51 lines (max: 50)";
     "Function 'f' lacks a docstring"].
Proof. reflexivity. Qed.


(** C6, counterexample: when reading [d/a.py] raises, the walk of [d] ends
    with that exception and returns no result, although [d/b.py] is fine. *)
Lemma unreadable_file_stops_the_walk :
  demo_is_dir "d" = true
  /\ In "d/b.py" (demo_rglob "d" "*.py")
  /\ eligible demo_exists demo_suffix "d/b.py" = true
  /\ demo_analyze true "d/b.py"
     = Return
         (mkAnalysisResult "d/b.py" []
            [("total_lines", 1); ("blank_lines", 0); ("comment_lines", 0)])
  /\ demo_analyze true "d/a.py" = Raise (Exception "UnicodeDecodeError")
  /\ demo_analyze_path true "d" = Raise (Exception "UnicodeDecodeError")
  /\ ~ exists results, demo_analyze_path true "d" = Return results.
Proof.
  repeat split; try reflexivity.
  - right. right. left. reflexivity.
  - intros [results H]. discriminate H.
Qed.

(** With [d/a.py] readable but not parsable, both files get a result. *)
Lemma syntax_errors_do_not_stop_the_walk_witness :
  demo_is_file "d" = false
  /\ demo_is_dir "d" = true
  /\ (forall f,
        In f (demo_rglob "d" "*.py") ->
        eligible demo_exists demo_suffix f = true ->
        exists content,
          demo_read false f = Return content
          /\ forall cls, demo_parse content <> Raise (Exception cls))
  /\ exists results,
       demo_analyze_path false "d" = Return results
       /\ Forall2 (fun f r => demo_analyze false f = Return r)
            (filter (eligible demo_exists demo_suffix)
               (demo_rglob "d" "*.py"))
            results.
Proof.
  assert (Hall : forall f,
             In f (demo_rglob "d" "*.py") ->
             eligible demo_exists demo_suffix f = true ->
             exists content,
               demo_read false f = Return content
               /\ forall cls, demo_parse content <> Raise (Exception cls)).
  { intros f [<-|[<-|[<-|[]]]] He.
    - exists "def f(:". split; [reflexivity|]. intros cls H. discriminate H.
    - discriminate He.
    - exists "x = 1". split; [reflexivity|]. intros cls H. discriminate H. }
  split; [reflexivity|]. split; [reflexivity|]. split; [exact Hall|].
  apply (syntax_errors_do_not_stop_the_walk demo_docstring demo_parse
           (demo_read false) demo_exists demo_is_file demo_is_dir
           demo_suffix demo_rglob "d");
    [reflexivity|reflexivity|exact Hall].
Defined.

Example walk_of_d :
  exists ra rb,
    demo_analyze_path false "d" = Return [ra; rb]
    /\ file_path ra = "d/a.py" /\ file_path rb = "d/b.py".
Proof. do 2 eexists. repeat split; reflexivity. Qed.

(** ** The further properties at worked inputs *)

Definition read_as (content : string) (path : string) : outcome string :=
  Return content.

Definition returned_list (o : outcome (list AnalysisResult))
  : list AnalysisResult :=
  match o with
  | Return l => l
  | Raise _ => []
  end.

Lemma metrics_of_parsed_file_witness :
  read_as commented_content "c.py" = Return commented_content
  /\ demo_parse commented_content = Return (Module [assign_x])
  /\ exists r total blank comment,
       analyze demo_docstring demo_parse (read_as commented_content) "c.py"
       = Return r
       /\ metrics r
          = [("total_lines", total); ("blank_lines", blank);
             ("comment_lines", comment)]
       /\ total = 1 + count_newlines commented_content
       /\ blank = count_if all_space (split_lines commented_content)
       /\ comment
          = count_if (fun l => String.prefix "#" (lstrip l))
              (split_lines commented_content)
       /\ 1 <= total /\ 0 <= blank /\ 0 <= comment
       /\ blank + comment <= total.
Proof.
  split; [reflexivity|]. split; [reflexivity|].
  apply (metrics_of_parsed_file demo_docstring demo_parse
           (read_as commented_content) "c.py" commented_content
           (Module [assign_x])); reflexivity.
Defined.

Example metrics_of_commented :
  metrics
    (returned
       (analyze demo_docstring demo_parse (read_as commented_content) "c.py"))
  = [("total_lines", 4); ("blank_lines", 2); ("comment_lines", 1)].
Proof. reflexivity. Qed.

Lemma result_labelled_with_path_witness :
  let r := returned (demo_analyze false "nested.py") in
  demo_analyze false "nested.py" = Return r
  /\ file_path r = "nested.py"
  /\ Forall (fun i => file i = "nested.py") (issues r).
Proof.
  intros r.
  assert (Hrun : demo_analyze false "nested.py" = Return r)
    by reflexivity.
  split; [exact Hrun|].
  exact (result_labelled_with_path demo_docstring demo_parse
           (demo_read false) "nested.py" r Hrun).
Defined.

Lemma lexical_issue_on_its_line_witness :
  let tree := lexical_module in
  read_as lexical_content "l.py" = Return lexical_content
  /\ demo_parse lexical_content = Return tree
  /\ exists r,
       analyze demo_docstring demo_parse (read_as lexical_content) "l.py"
       = Return r
       /\ forall i,
            In i (issues r) ->
            In (issue_type i) lexical_kinds ->
            1 <= line i
            <= Z.of_nat (List.length (split_lines lexical_content))
            /\ exists l,
                 nth_error (split_lines lexical_content)
                   (Z.to_nat (line i - 1))
                 = Some l
                 /\ In i (line_issues "l.py" (line i, l)).
Proof.
  intros tree.
  split; [reflexivity|]. split; [reflexivity|].
  apply (lexical_issue_on_its_line demo_docstring demo_parse
           (read_as lexical_content) "l.py" lexical_content tree);
    reflexivity.
Defined.

Example lexical_issues_found :
  map (fun i => (line i, issue_type i))
    (issues
       (returned
          (analyze demo_docstring demo_parse (read_as lexical_content)
             "l.py")))
  = [(1, "PRINT_STATEMENT"); (4, "BARE_EXCEPT"); (6, "PENDING_TASK")].
Proof. reflexivity. Qed.

Example long_function_at_the_boundary :
  existsb (has_type "LONG_FUNCTION")
    (function_issues demo_docstring "f.py"
       (FunctionDef "f" 10 (Some 59) no_arguments [] [] None []))
  = false
  /\ existsb (has_type "LONG_FUNCTION")
       (function_issues demo_docstring "f.py"
          (FunctionDef "f" 10 (Some 60) no_arguments [] [] None []))
     = true.
Proof. split; reflexivity. Qed.

Lemma directory_walk_results_witness :
  let results := returned_list (demo_analyze_path false "d") in
  demo_is_file "d" = false
  /\ demo_is_dir "d" = true
  /\ demo_analyze_path false "d" = Return results
  /\ map file_path results
     = filter (eligible demo_exists demo_suffix) (demo_rglob "d" "*.py")
  /\ Forall (fun r => skipped (file_path r) = false) results.
Proof.
  intros results.
  assert (Hrun : demo_analyze_path false "d" = Return results)
    by reflexivity.
  split; [reflexivity|]. split; [reflexivity|]. split; [exact Hrun|].
  exact (directory_walk_results demo_docstring demo_parse (demo_read false)
           demo_exists demo_is_file demo_is_dir demo_suffix demo_rglob
           "d" results eq_refl eq_refl Hrun).
Defined.

Example files_of_d :
  map file_path (returned_list (demo_analyze_path false "d"))
  = ["d/a.py"; "d/b.py"].
Proof. reflexivity. Qed.

Example walk_order_of_nested_module :
  walk nested_module
  = [nested_module]
    ++ iter_child_nodes nested_module
    ++ flat_map iter_child_nodes (iter_child_nodes nested_module)
    ++ flat_map iter_child_nodes
         (flat_map iter_child_nodes (iter_child_nodes nested_module))
    ++ flat_map iter_child_nodes
         (flat_map iter_child_nodes
            (flat_map iter_child_nodes (iter_child_nodes nested_module))).
Proof. reflexivity. Qed.

(** The report of [nested.py]: issues found on lines 2, 3, 1. *)
Definition nested_results : list AnalysisResult :=
  [returned (demo_analyze false "nested.py")].

Lemma report_counts_add_up_witness :
  nested_results <> []
  /\ forallb known_severity (all_issues nested_results) = true
  /\ exists high medium low details,
       fst (print_report nested_results [])
       = report_opening nested_results
         ++ [(nl ++ "By severity:")%string;
             ("  ðŸ”´ HIGH:   " ++ str_of_int high)%string;
             ("  ðŸŸ¡ MEDIUM: " ++ str_of_int medium)%string;
             ("  ðŸŸ¢ LOW:    " ++ str_of_int low)%string]
         ++ details
       /\ high + medium + low
          = Z.of_nat (List.length (all_issues nested_results)).
Proof.
  assert (Hne : nested_results <> []) by discriminate.
  split; [exact Hne|]. split; [reflexivity|].
  apply (report_counts_add_up nested_results Hne). reflexivity.
Defined.

Lemma report_details_sorted_witness :
  let r := returned (demo_analyze false "nested.py") in
  forallb known_severity (all_issues nested_results) = true
  /\ In r nested_results
  /\ issues r <> []
  /\ exists before after shown,
       fst (print_report nested_results [])
       = before ++ flat_map issue_lines shown ++ after
       /\ Permutation shown (issues r)
       /\ StronglySorted line_le shown
       /\ forall k,
            filter (fun i => line i =? k) shown
            = filter (fun i => line i =? k) (issues r).
Proof.
  intros r.
  assert (Hin : In r nested_results) by (left; reflexivity).
  assert (Hne : issues r <> []) by discriminate.
  split; [reflexivity|]. split; [exact Hin|]. split; [exact Hne|].
  apply (report_details_sorted nested_results r eq_refl Hin Hne).
Defined.

Example lines_in_found_and_shown_order :
  map line (issues (returned (demo_analyze false "nested.py"))) = [2; 3; 1]
  /\ map line
       (sorted_by_line (issues (returned (demo_analyze false "nested.py"))))
     = [1; 2; 3].
Proof. split; reflexivity. Qed.

Lemma report_of_analysis_completes_witness :
  let results := returned_list (demo_analyze_path false "d") in
  demo_analyze_path false "d" = Return results
  /\ print_report results [] = (report_text results, Return tt).
Proof.
  intros results.
  assert (Hrun : demo_analyze_path false "d" = Return results)
    by reflexivity.
  split; [exact Hrun|].
  exact (report_of_analysis_completes demo_docstring demo_parse
           (demo_read false) demo_exists demo_is_file demo_is_dir
           demo_suffix demo_rglob "d" results Hrun).
Defined.

Example report_with_unknown_severity :
  print_report
    [mkAnalysisResult "x.py"
       [mkCodeIssue "x.py" 1 "CUSTOM" "CRITICAL" "m" "s"] []] []
  = ([(nl ++ str_mul "=" 60)%string;
      "ATENA CODE ANALYSIS REPORT";
      str_mul "=" 60;
      (nl ++ "Files analyzed: 1")%string;
      "Total issues found: 1"],
     Raise (Exception "KeyError")).
Proof. reflexivity. Qed.

(** * The documentation fetcher ([doc_fetcher.py])

    [re.search] belongs to the Python runtime and is a section variable;
    the patterns are the texts of [ERROR_PATTERNS].  The logging calls
    write to the log only and are left out. *)

(** A match object: [group(0)], the capturing groups ([None] for a group
    that took no part in the match) and [lastindex]. *)
Record re_match : Type := mk_re_match {
  whole : string;
  groups : list (option string);
  lastindex : option Z
}.

Record ErrorInfo : Type := mkErrorInfo {
  error_type : string;
  error_message : option string;
  module : option string;
  function : option string;
  line_number : option Z
}.

Record DocReference : Type := mkDocReference {
  title : string;
  url : string;
  description : string;
  related_topics : list string
}.

(** The double quote, which the patterns hold as a character. *)
Definition dq : string := String "034"%char EmptyString.

Definition ERROR_PATTERNS : list (string * string) :=
  [("import",
    ("(?:ModuleNotFoundError|ImportError):\s*(?:No module named\s*)?['\"
     ++ dq ++ "]?(\w+)['\" ++ dq ++ "]?")%string);
   ("attribute",
    ("AttributeError:\s*['\" ++ dq
     ++ "]?(\w+)['\" ++ dq ++ "]?\s*object has no attribute\s*['\" ++ dq
     ++ "]?(\w+)['\" ++ dq ++ "]?")%string);
   ("type", "TypeError:\s*(.+)");
   ("name",
    ("NameError:\s*name\s*['\" ++ dq ++ "]?(\w+)['\" ++ dq
     ++ "]?\s*is not defined")%string);
   ("value", "ValueError:\s*(.+)");
   ("key",
    ("KeyError:\s*['\" ++ dq ++ "]?(.+?)['\" ++ dq ++ "]?")%string);
   ("index", "IndexError:\s*(.+)");
   ("syntax", "SyntaxError:\s*(.+)")].

Definition generic_pattern : string := "(\w+Error):\s*(.+)".

(** [match.group(n)] for [n >= 1]. *)
Definition group (m : re_match) (n : nat) : outcome (option string) :=
  match nth_error (groups m) (n - 1) with
  | Some g => Return g
  | None => Raise (Exception "IndexError")
  end.

(** [match.group(n) if match.lastindex >= n else None]; comparing [None]
    with a number is a [TypeError]. *)
Definition group_if_reached (m : re_match) (n : nat)
  : outcome (option string) :=
  match lastindex m with
  | None => Raise (Exception "TypeError")
  | Some last => if last >=? Z.of_nat n then group m n else Return None
  end.

Record doc_mapping : Type := mk_doc_mapping {
  base_url : string;
  topics : list (string * string)
}.

Definition DOC_MAPPINGS : list (string * doc_mapping) :=
  [("requests",
    mk_doc_mapping "https://requests.readthedocs.io/en/latest/"
      [("ConnectionError", "user/quickstart/#errors-and-exceptions");
       ("Timeout", "user/quickstart/#timeouts");
       ("HTTPError", "user/quickstart/#errors-and-exceptions");
       ("default", "api/")]);
   ("json",
    mk_doc_mapping "https://docs.python.org/3/library/json.html"
      [("JSONDecodeError", "#json.JSONDecodeError"); ("default", "")]);
   ("os",
    mk_doc_mapping "https://docs.python.org/3/library/os.html"
      [("default", "")]);
   ("pathlib",
    mk_doc_mapping "https://docs.python.org/3/library/pathlib.html"
      [("default", "")]);
   ("subprocess",
    mk_doc_mapping "https://docs.python.org/3/library/subprocess.html"
      [("CalledProcessError", "#subprocess.CalledProcessError");
       ("TimeoutExpired", "#subprocess.TimeoutExpired");
       ("default", "")]);
   ("asyncio",
    mk_doc_mapping "https://docs.python.org/3/library/asyncio.html"
      [("default", "")])].

Definition COMMON_ERRORS_DOC : list (string * DocReference) :=
  [("import",
    mkDocReference "Module Import Errors"
      "https://docs.python.org/3/tutorial/modules.html"
      "Guide on Python modules and import system"
      ["pip install"; "virtual environments"; "PYTHONPATH"]);
   ("attribute",
    mkDocReference "Attribute Errors"
      "https://docs.python.org/3/tutorial/classes.html"
      "Understanding Python classes and attributes"
      ["hasattr()"; "getattr()"; "dir()"]);
   ("type",
    mkDocReference "Type Errors"
      "https://docs.python.org/3/library/typing.html"
      "Python type system and type hints"
      ["isinstance()"; "type()"; "typing module"]);
   ("syntax",
    mkDocReference "Syntax Errors"
      "https://docs.python.org/3/tutorial/errors.html"
      "Understanding Python syntax and common mistakes"
      ["indentation"; "colons"; "parentheses"])].

(** [key in d] *)
Definition has_key {V : Type} (d : list (string * V)) (k : string) : bool :=
  match lookup d k with Some _ => true | None => false end.

(** [str(x)] for an [Optional[str]], as an f-string prints it. *)
Definition str_of_optional (o : option string) : string :=
  match o with Some s => s | None => "None" end.

(** ** [DocumentationFetcher] *)

Definition get_documentation (error_info : ErrorInfo)
  : outcome DocReference :=
  match module error_info with
  | Some m =>
      if truthy (module error_info) && has_key DOC_MAPPINGS m then
        (* Check if we have specific module documentation *)
        mapping <- getitem DOC_MAPPINGS m ;;
        fallback <- getitem (topics mapping) "default" ;;
        let topic_path :=
          match lookup (topics mapping) (error_type error_info) with
          | Some path => path
          | None => fallback
          end in
        Return
          (mkDocReference (m ++ " Documentation")
             (base_url mapping ++ topic_path)
             ("Official documentation for " ++ m ++ " module")
             (map fst (topics mapping)))
      else
        match lookup COMMON_ERRORS_DOC (error_type error_info) with
        | Some doc => Return doc
        | None =>
            Return
              (mkDocReference "Python Documentation"
                 "https://docs.python.org/3/"
                 "Official Python documentation"
                 ["tutorial"; "library reference"; "language reference"])
        end
  | None =>
      (* Fall back to common error documentation *)
      match lookup COMMON_ERRORS_DOC (error_type error_info) with
      | Some doc => Return doc
      | None =>
          (* Generic Python documentation *)
          Return
            (mkDocReference "Python Documentation"
               "https://docs.python.org/3/"
               "Official Python documentation"
               ["tutorial"; "library reference"; "language reference"])
      end
  end.

Definition fallback_suggestion : string :=
  "Review the error message and check the documentation.".

Definition suggest_fix (error_info : ErrorInfo) : string :=
  let suggestions :=
    [("import",
      ("Try: pip install " ++ str_of_optional (module error_info) ++ nl
       ++ "Or check if the module name is spelled correctly.")%string);
     ("attribute",
      ("The object doesn't have attribute '"
       ++ str_of_optional (function error_info)
       ++ "'. Check the object type with type() or use dir() to see available attributes.")%string);
     ("type",
      "Check the types of your variables. Use type() to inspect them.");
     ("name",
      ("Variable '" ++ str_of_optional (module error_info)
       ++ "' is not defined. Check for typos or ensure it's defined before use.")%string);
     ("value",
      "The value provided is invalid. Check the expected format/range.");
     ("key",
      ("Key '" ++ str_of_optional (module error_info)
       ++ "' not found. Use .get() method for safe access or check available keys.")%string);
     ("index",
      "List index out of range. Check the list length before accessing.");
     ("syntax",
      "Check for missing colons, parentheses, or incorrect indentation.")]
  in
  match lookup suggestions (error_type error_info) with
  | Some s => s
  | None => fallback_suggestion
  end.

(** The values of the [dict] that [analyze_error] returns. *)
#[warnings="-register-all"] Inductive value : Type :=
| VNone
| VStr (s : string)
| VList (items : list string)
| VDict (entries : list (string * value)).

Definition value_of_optional (o : option string) : value :=
  match o with Some s => VStr s | None => VNone end.

Section DocFetcher.

Variable re_search : string -> string -> option re_match.   (* re.search *)

(** ** [ErrorParser.parse] *)

Fixpoint parse_patterns (patterns : list (string * string))
  (error_output : string) : outcome (option ErrorInfo) :=
  match patterns with
  | (error_type, pattern) :: rest =>
      match re_search pattern error_output with
      | Some m =>
          module <- group_if_reached m 1 ;;
          function <- group_if_reached m 2 ;;
          Return
            (Some (mkErrorInfo error_type (Some (whole m)) module function
                     None))
      | None => parse_patterns rest error_output
      end
  | [] =>
      (* Generic error extraction *)
      match re_search generic_pattern error_output with
      | Some generic_match =>
          message <- group generic_match 2 ;;
          Return (Some (mkErrorInfo "generic" message None None None))
      | None => Return None
      end
  end.

Definition parse (error_output : string) : outcome (option ErrorInfo) :=
  parse_patterns ERROR_PATTERNS error_output.

(** ** [DocAssistant.analyze_error] *)

Definition analyze_error (error_output : string) : outcome value :=
  error_info <- parse error_output ;;
  match error_info with
  | None =>
      Return
        (VDict
           [("status", VStr "unknown_error");
            ("message", VStr "Could not parse the error");
            ("suggestion", VStr "Please check the error message manually");
            ("doc_url", VStr "https://docs.python.org/3/")])
  | Some error_info =>
      doc_ref <- get_documentation error_info ;;
      let suggestion := suggest_fix error_info in
      Return
        (VDict
           [("status", VStr "analyzed");
            ("error_type", VStr (error_type error_info));
            ("message", value_of_optional (error_message error_info));
            ("suggestion", VStr suggestion);
            ("documentation",
             VDict
               [("title", VStr (title doc_ref));
                ("url", VStr (url doc_ref));
                ("description", VStr (description doc_ref));
                ("related_topics", VList (related_topics doc_ref))])])
  end.

(** *** Reference notions *)

(** The names [parse] gives to an error. *)
Definition parsed_error_types : list string :=
  map fst ERROR_PATTERNS ++ ["generic"].

(** The page of a mapped module: its base address and default topic. *)
Definition module_page (m : doc_mapping) : string :=
  (base_url m
   ++ match lookup (topics m) "default" with
      | Some path => path
      | None => EmptyString
      end)%string.

(** The addresses [analyze_error] can link to. *)
Definition reachable_urls : list string :=
  map (fun entry => module_page (snd entry)) DOC_MAPPINGS
  ++ map (fun entry => url (snd entry)) COMMON_ERRORS_DOC
  ++ ["https://docs.python.org/3/"].

(** The addresses of the topics other than [default]. *)
Definition topic_urls : list string :=
  flat_map
    (fun entry =>
       map (fun topic => (base_url (snd entry) ++ snd topic)%string)
         (filter (fun topic => negb (String.eqb (fst topic) "default"))
            (topics (snd entry))))
    DOC_MAPPINGS.

(** ** What [parse] returns *)

Lemma parse_patterns_types (patterns : list (string * string))
  (error_output : string) (info : ErrorInfo) :
  parse_patterns patterns error_output = Return (Some info) ->
  In (error_type info) (map fst patterns ++ ["generic"]).
Proof.
  induction patterns as [|[ty pat] rest IH]; simpl.
  - destruct (re_search generic_pattern error_output) as [m|];
      [|discriminate].
    destruct (group m 2) as [g|e]; simpl; [|discriminate].
    intros H. injection H as <-. left. reflexivity.
  - destruct (re_search pat error_output) as [m|].
    + destruct (group_if_reached m 1) as [g1|e]; simpl; [|discriminate].
      destruct (group_if_reached m 2) as [g2|e]; simpl; [|discriminate].
      intros H. injection H as <-. left. reflexivity.
    + intros H. right. apply IH, H.
Qed.

(** X19: an error that [parse] recognises is named [import],
    [attribute], [type], [name], [value], [key], [index], [syntax] or
    [generic], and nothing else; a generic error carries no module and no
    function. *)
Theorem parse_error_types (error_output : string) (info : ErrorInfo) :
  parse error_output = Return (Some info) ->
  In (error_type info) parsed_error_types
  /\ (error_type info = "generic" ->
      module info = None /\ function info = None).
Proof.
  intros Hparse. split.
  - apply (parse_patterns_types ERROR_PATTERNS error_output info Hparse).
  - revert Hparse. unfold parse, ERROR_PATTERNS. cbn [parse_patterns].
    repeat match goal with
           | |- context [re_search ?p ?s] =>
               destruct (re_search p s) as [?m|];
               [destruct (group_if_reached _ 1); simpl; [|discriminate];
                destruct (group_if_reached _ 2); simpl; [|discriminate];
                intros H Hg; injection H as <-; discriminate Hg|]
           end.
    destruct (re_search generic_pattern error_output) as [gm|];
      [|discriminate].
    destruct (group gm 2); simpl; [|discriminate].
    intros H _. injection H as <-. split; reflexivity.
Qed.

(** ** The documentation that is reachable *)

Lemma has_key_mapping (m : string) :
  has_key DOC_MAPPINGS m = true ->
  In m ["requests"; "json"; "os"; "pathlib"; "subprocess"; "asyncio"].
Proof.
  unfold has_key, DOC_MAPPINGS. cbn [lookup].
  repeat match goal with
         | |- context [String.eqb m ?k] =>
             destruct (String.eqb_spec m k); [subst; simpl; tauto|]
         end.
  discriminate.
Qed.

(** X20: for an error that [parse] recognised, [get_documentation] never
    fails and links to the default page of the error's module, to one of
    the four common pages or to the Python documentation; the pages of the
    other topics of [DOC_MAPPINGS] (ConnectionError, Timeout, HTTPError,
    JSONDecodeError, CalledProcessError, TimeoutExpired) are never
    linked, since no error type of [parse] is one of their keys. *)
Theorem documentation_links (error_output : string) (info : ErrorInfo) :
  parse error_output = Return (Some info) ->
  exists ref,
    get_documentation info = Return ref
    /\ In (url ref) reachable_urls
    /\ ~ In (url ref) topic_urls
    /\ (forall m mapping,
          module info = Some m -> m <> EmptyString ->
          lookup DOC_MAPPINGS m = Some mapping ->
          url ref = module_page mapping).
Proof.
  intros Hparse.
  pose proof (parse_patterns_types ERROR_PATTERNS error_output info Hparse)
    as Htype.
  unfold get_documentation.
  destruct (module info) as [m|] eqn:Hm.
  - destruct (truthy (Some m) && has_key DOC_MAPPINGS m) eqn:Hkey.
    + apply andb_true_iff in Hkey. destruct Hkey as [_ Hkey].
      apply has_key_mapping in Hkey.
      simpl in Htype, Hkey.
      repeat (destruct Hkey as [<-|Hkey]; [|]); try contradiction;
        repeat (destruct Htype as [<-|Htype]; [|]); try contradiction;
        (eexists; split; [reflexivity|]);
        (split; [vm_compute; tauto|]);
        (split;
         [vm_compute; intros H;
          repeat (destruct H as [H|H]; [discriminate H|]); exact H|]);
        intros m' mapping Heq _ Hlook; injection Heq as <-;
        vm_compute in Hlook; injection Hlook as <-; reflexivity.
    + simpl in Htype.
      repeat (destruct Htype as [<-|Htype]; [|]); try contradiction;
        (eexists; split; [reflexivity|]);
        (split; [vm_compute; tauto|]);
        (split;
         [vm_compute; intros H;
          repeat (destruct H as [H|H]; [discriminate H|]); exact H|]);
        intros m' mapping Heq Hne Hlook; injection Heq as <-;
        exfalso; apply andb_false_iff in Hkey;
        (destruct Hkey as [Hkey|Hkey];
         [destruct m; [congruence|discriminate Hkey]
         |unfold has_key in Hkey; rewrite Hlook in Hkey; discriminate]).
  - simpl in Htype.
    repeat (destruct Htype as [<-|Htype]; [|]); try contradiction;
      (eexists; split; [reflexivity|]);
      (split; [vm_compute; tauto|]);
      (split;
       [vm_compute; intros H;
        repeat (destruct H as [H|H]; [discriminate H|]); exact H|]);
      intros m' mapping Heq; discriminate Heq.
Qed.

(** X21: the suggestion for an error that [parse] recognised is the
    general one, [Review the error message and check the documentation.],
    exactly when the error is a generic one: each of the eight named
    error types has a suggestion of its own. *)
Theorem suggestion_is_general_for_generic (error_output : string)
  (info : ErrorInfo) :
  parse error_output = Return (Some info) ->
  (suggest_fix info = fallback_suggestion <-> error_type info = "generic").
Proof.
  intros Hparse.
  pose proof (parse_patterns_types ERROR_PATTERNS error_output info Hparse)
    as Htype.
  simpl in Htype. unfold suggest_fix.
  repeat (destruct Htype as [Htype|Htype];
          [rewrite <- Htype;
           cbn [lookup String.eqb Ascii.eqb Bool.eqb];
           split; intros H; discriminate H|]).
  destruct Htype as [Htype|[]]. rewrite <- Htype.
  split; reflexivity.
Qed.

Lemma lookup_common (ty : string) :
  match lookup COMMON_ERRORS_DOC ty with
  | Some doc =>
      String.prefix "https://" (url doc) = true /\ related_topics doc <> []
  | None => True
  end.
Proof.
  unfold COMMON_ERRORS_DOC. cbn [lookup].
  repeat match goal with
         | |- context [String.eqb ty ?k] =>
             destruct (String.eqb ty k); [split; [reflexivity|discriminate]|]
         end.
  exact I.
Qed.

(** X22: [get_documentation] answers for every [ErrorInfo], whatever its
    fields hold: no lookup in its tables raises a [KeyError], the address
    it returns starts with [https://] and at least one related topic comes
    with it. *)
Theorem get_documentation_answers (info : ErrorInfo) :
  exists ref,
    get_documentation info = Return ref
    /\ String.prefix "https://" (url ref) = true
    /\ related_topics ref <> [].
Proof.
  assert (Hcommon :
    exists ref,
      match lookup COMMON_ERRORS_DOC (error_type info) with
      | Some doc => Return doc
      | None =>
          Return
            (mkDocReference "Python Documentation"
               "https://docs.python.org/3/"
               "Official Python documentation"
               ["tutorial"; "library reference"; "language reference"])
      end = Return ref
      /\ String.prefix "https://" (url ref) = true
      /\ related_topics ref <> []).
  { pose proof (lookup_common (error_type info)) as H.
    destruct (lookup COMMON_ERRORS_DOC (error_type info)) as [doc|].
    - exists doc. split; [reflexivity|exact H].
    - eexists. split; [reflexivity|]. split; [reflexivity|discriminate]. }
  unfold get_documentation.
  destruct (module info) as [m|]; [|exact Hcommon].
  destruct (truthy (Some m) && has_key DOC_MAPPINGS m) eqn:Hkey;
    [|exact Hcommon].
  apply andb_true_iff in Hkey. destruct Hkey as [_ Hkey].
  apply has_key_mapping in Hkey. simpl in Hkey.
  repeat (destruct Hkey as [<-|Hkey]; [|]); try contradiction;
    cbn [getitem lookup DOC_MAPPINGS String.eqb Ascii.eqb Bool.eqb bind
         topics base_url];
    (eexists; split; [reflexivity|]);
    (split; [|discriminate]);
    cbn [url];
    repeat match goal with
           | |- context [String.eqb (error_type info) ?k] =>
               destruct (String.eqb (error_type info) k)
           end; reflexivity.
Qed.

End DocFetcher.

(** ** Worked inputs for the fetcher *)

Definition import_error : string :=
  "ModuleNotFoundError: No module named 'requests'".

Definition import_pattern : string :=
  match ERROR_PATTERNS with
  | (_, pattern) :: _ => pattern
  | [] => EmptyString
  end.

(** What [re.search] answers on three texts: [import_error], which the
    [import] pattern and the generic pattern match, [OSError: disk full],
    which the generic pattern alone matches, and [nothing to see], which
    no pattern matches.  No other text is searched below. *)
Definition demo_search (pattern text : string) : option re_match :=
  if String.eqb text import_error then
    if String.eqb pattern import_pattern
    then Some (mk_re_match import_error [Some "requests"] (Some 1))
    else if String.eqb pattern generic_pattern
    then Some (mk_re_match import_error
                 [Some "ModuleNotFoundError";
                  Some "No module named 'requests'"] (Some 2))
    else None
  else if String.eqb text "OSError: disk full"
          && String.eqb pattern generic_pattern
  then Some (mk_re_match "OSError: disk full"
               [Some "OSError"; Some "disk full"] (Some 2))
  else None.

Definition import_info : ErrorInfo :=
  mkErrorInfo "import" (Some import_error) (Some "requests") None None.

Definition generic_info : ErrorInfo :=
  mkErrorInfo "generic" (Some "disk full") None None None.

Lemma parse_error_types_witness :
  parse demo_search "OSError: disk full" = Return (Some generic_info)
  /\ In (error_type generic_info) parsed_error_types
  /\ (error_type generic_info = "generic" ->
      module generic_info = None /\ function generic_info = None).
Proof.
  split; [reflexivity|].
  apply (parse_error_types demo_search "OSError: disk full" generic_info).
  reflexivity.
Defined.

Lemma documentation_links_witness :
  parse demo_search import_error = Return (Some import_info)
  /\ exists ref,
       get_documentation import_info = Return ref
       /\ In (url ref) reachable_urls
       /\ ~ In (url ref) topic_urls
       /\ (forall m mapping,
             module import_info = Some m -> m <> EmptyString ->
             lookup DOC_MAPPINGS m = Some mapping ->
             url ref = module_page mapping).
Proof.
  split; [reflexivity|].
  apply (documentation_links demo_search import_error import_info).
  reflexivity.
Defined.

Example import_error_documentation :
  get_documentation import_info
  = Return
      (mkDocReference "requests Documentation"
         "https://requests.readthedocs.io/en/latest/api/"
         "Official documentation for requests module"
         ["ConnectionError"; "Timeout"; "HTTPError"; "default"]).
Proof. reflexivity. Qed.

Lemma suggestion_is_general_for_generic_witness :
  parse demo_search "OSError: disk full" = Return (Some generic_info)
  /\ (suggest_fix generic_info = fallback_suggestion
      <-> error_type generic_info = "generic").
Proof.
  split; [reflexivity|].
  apply (suggestion_is_general_for_generic demo_search "OSError: disk full"
           generic_info).
  reflexivity.
Defined.

Example unknown_error_answer :
  analyze_error demo_search "nothing to see"
  = Return
      (VDict
         [("status", VStr "unknown_error");
          ("message", VStr "Could not parse the error");
          ("suggestion", VStr "Please check the error message manually");
          ("doc_url", VStr "https://docs.python.org/3/")]).
Proof. reflexivity. Qed.
